(** * The partner demo application (main.py): session store and routes

    A shallow embedding of [main.py].  The module keeps one process-wide
    dictionary [_state] and a handful of Flask routes that read and write
    it, call the [climate] client module and format HTML.

    - Python values that flow through the routes (tokens, the user record,
      the cached field list, the client's answers) are JSON-shaped; they are
      the inductive [pyval].
    - [_state] and the [**kwargs] of [set_state] are dictionaries keyed by
      strings: [gmap string pyval].
    - A route either returns a response or raises; it may write [_state] and
      call the client.  Routes live in the monad [M], a state-and-error monad
      over [world] (the store plus the log of client calls).
    - The [climate] module, Flask's [url_for], [json.dumps] and the
      interpreter's [int] on strings are not part of this file of the
      program: they are the interfaces [Climate], [Framework] and
      [Builtins], and every statement is for all their implementations. *)

From Stdlib Require Import ZArith String Ascii List Bool Lia DecimalString.
From stdpp Require Import gmap strings list fin_maps.

Local Open Scope Z_scope.
Local Open Scope string_scope.
Set Warnings "-register-all,-clear-no-such-hyp".

(** ** Python values *)

Inductive pyval : Type :=
| PNone
| PBool (b : bool)
| PInt (n : Z)
| PStr (s : string)
| PList (xs : list pyval)
| PDict (items : list (string * pyval)).

(** The exceptions that the modelled code can raise.  [ClientError] stands
    for whatever the client module or the framework raises on its own. *)
Inductive exn : Type :=
| KeyError (key : string)
| IndexError
| TypeError
| ValueError
| AttributeError (name : string)
| BadRequestKeyError (key : string)
| ClientError (msg : string).

Inductive result (A : Type) : Type :=
| Ok (a : A)
| Raise (e : exn).
Arguments Ok {A} a.
Arguments Raise {A} e.

Definition rbind {A B} (r : result A) (k : A -> result B) : result B :=
  match r with
  | Ok a => k a
  | Raise e => Raise e
  end.

(** [bool(v)]: what [if v:] tests. *)
Definition truthy (v : pyval) : bool :=
  match v with
  | PNone => false
  | PBool b => b
  | PInt n => negb (n =? 0)%Z
  | PStr s => negb (String.eqb s EmptyString)
  | PList xs => match xs with [] => false | _ :: _ => true end
  | PDict items => match items with [] => false | _ :: _ => true end
  end.

(** [v is not None]. *)
Definition is_not_None (v : pyval) : bool :=
  match v with
  | PNone => false
  | _ => true
  end.

Fixpoint assoc {A} (key : string) (items : list (string * A)) : option A :=
  match items with
  | [] => None
  | (k, v) :: rest => if String.eqb k key then Some v else assoc key rest
  end.

(** [v[key]] for a string key: only a dictionary can be subscripted by a
    string; a missing key is a [KeyError]. *)
Definition py_getitem (v : pyval) (key : string) : result pyval :=
  match v with
  | PDict items =>
      match assoc key items with
      | Some x => Ok x
      | None => Raise (KeyError key)
      end
  | _ => Raise TypeError
  end.

Fixpoint chars (s : string) : list pyval :=
  match s with
  | EmptyString => []
  | String c rest => PStr (String c EmptyString) :: chars rest
  end.

(** [iter(v)], consumed to the end: lists give their elements, dictionaries
    their keys, strings their characters; nothing else is iterable. *)
Definition py_iter (v : pyval) : result (list pyval) :=
  match v with
  | PList xs => Ok xs
  | PDict items => Ok (map (fun kv => PStr (fst kv)) items)
  | PStr s => Ok (chars s)
  | _ => Raise TypeError
  end.

(** [v == s] where [s] is a [str]: only an equal string compares equal. *)
Definition py_eq_str (v : pyval) (s : string) : bool :=
  match v with
  | PStr s' => String.eqb s' s
  | _ => false
  end.

(** ** The session store: [_state], [set_state], [clear_state], [state] *)

Definition set_state (kwargs : gmap string pyval) (st : gmap string pyval)
  : gmap string pyval :=
  let st :=
    if kwargs !! "access_token" is Some v then <["access_token" := v]> st else st in
  let st :=
    if kwargs !! "refresh_token" is Some v then <["refresh_token" := v]> st else st in
  let st :=
    if kwargs !! "user" is Some v then <["user" := v]> st else st in
  let st :=
    if kwargs !! "fields" is Some v then <["fields" := v]> st else st in
  st.

Definition clear_state (st : gmap string pyval) : gmap string pyval :=
  set_state
    {[ "access_token" := PNone; "refresh_token" := PNone;
       "user" := PNone; "fields" := PNone ]} st.

(** [_state.get(key)]: the stored value, [None] when the key is missing. *)
Definition state (st : gmap string pyval) (key : string) : pyval :=
  default PNone (st !! key).

(** The four keys that [set_state] knows. *)
Definition session_keys : gset string :=
  {[ "access_token"; "refresh_token"; "user"; "fields" ]}.

(** ** Routes as computations over the store and the client log *)

(** The process-wide state a route can touch: the [_state] dictionary and,
    so that "this route calls the client" can be stated, the names of the
    [climate] functions called so far, oldest first. *)
Record world : Type := World {
  _state : gmap string pyval;
  calls : list string
}.

Definition M (A : Type) : Type := world -> result A * world.

Definition ret {A} (a : A) : M A := fun w => (Ok a, w).

Definition bind {A B} (m : M A) (k : A -> M B) : M B :=
  fun w =>
    match m w with
    | (Ok a, w') => k a w'
    | (Raise e, w') => (Raise e, w')
    end.

Definition lift {A} (r : result A) : M A := fun w => (r, w).

Notation "'let*' x ':=' r 'in' k" := (rbind r (fun x => k))
  (at level 10, x name, r at level 100, k at level 200).
Notation "x <- m ;; k" := (bind m (fun x => k))
  (at level 100, m at next level, right associativity).

(** [state(key)], [set_state(...)] and [clear_state()] on the global. *)
Definition stateM (key : string) : M pyval :=
  fun w => (Ok (state (_state w) key), w).

Definition set_stateM (kwargs : gmap string pyval) : M unit :=
  fun w => (Ok tt, World (set_state kwargs (_state w)) (calls w)).

Definition clear_stateM : M unit :=
  fun w => (Ok tt, World (clear_state (_state w)) (calls w)).

(** A call of the client function [name] with answer [r]: it is logged,
    whether it returns or raises. *)
Definition climate_call {A} (name : string) (r : result A) : M A :=
  fun w => (r, World (_state w) (calls w ++ [name])).

Fixpoint mapR {A B} (f : A -> result B) (xs : list A) : result (list B) :=
  match xs with
  | [] => Ok []
  | x :: rest =>
      let* y := f x in
      let* ys := mapR f rest in
      Ok (y :: ys)
  end.

(** What a route hands back to Flask: an HTML page (a returned [str]), a
    redirect, or a [Response] object with a body and headers. *)
Inductive response : Type :=
| Html (page : string)
| Redirect (location : string)
| Stream (content : list Byte.byte) (headers : list (string * string)).

(** [request.args], the query string of the request being served. *)
Record request : Type := Request {
  args : list (string * string)
}.

(** [request.args.get(key)] *)
Definition args_get (req : request) (key : string) : pyval :=
  match assoc key (args req) with
  | Some s => PStr s
  | None => PNone
  end.

(** [request.args[key]]: Werkzeug raises its [BadRequestKeyError]. *)
Definition args_getitem (req : request) (key : string) : result string :=
  match assoc key (args req) with
  | Some s => Ok s
  | None => Raise (BadRequestKeyError key)
  end.

(** ** [int] *)

(** [int(s)] for a [str] belongs to the interpreter, not to [main.py]:
    which texts it reads as a number depends on the interpreter's Unicode
    tables (white space and decimal digits of every script), on its
    version (underscores between digits) and on its cap on the number of
    digits.  It is taken from outside, and every statement holds for every
    such function. *)
Class Builtins : Type := {
  int_str : string -> result Z
}.

(** [int(v)] as the routes use it, on what [request.args.get] returns:
    [None] is a [TypeError], a string is read by the interpreter. *)
Definition py_int {bi : Builtins} (v : pyval) : result Z :=
  match v with
  | PStr s => int_str s
  | PInt n => Ok n
  | PBool b => Ok (if b then 1 else 0)
  | _ => Raise TypeError
  end.

(** ** What the program takes from outside *)

(** The partner credentials read from [os.environ] when the module is
    loaded. *)
Class Environ : Type := {
  CLIMATE_API_ID : string;
  CLIMATE_API_SECRET : string;
  CLIMATE_API_SCOPES : string;
  CLIMATE_API_KEY : string
}.

(** Flask's URL builder (endpoint name and keyword values), [json.dumps]
    with the options the routes pass, and [repr] of a value that is not a
    string. *)
Class Framework : Type := {
  url_for : string -> list (string * pyval) -> result string;
  json_dumps : pyval -> string;
  py_repr : pyval -> string
}.

(** The functions of the [climate] module that the modelled routes call.
    [climate_getattr] is [getattr(climate, name)] for the activity getters,
    which answer with a pair (continuation token, activities). *)
Class Climate : Type := {
  login_uri : string -> string -> string -> result string;
  authorize : string -> string -> string -> string -> result pyval;
  reauthorize : pyval -> string -> string -> result pyval;
  get_fields : pyval -> string -> result pyval;
  get_boundary : pyval -> pyval -> string -> result pyval;
  get_scouting_observation_attachments_contents :
    pyval -> string -> string -> string -> pyval -> Z ->
    result (list Byte.byte);
  climate_getattr :
    string -> option (pyval -> string -> pyval -> result (pyval * pyval))
}.

(** The double quote, which the templates use around attribute values. *)
Definition dq : string := String "034"%char EmptyString.

(** The line feed that ['\n'.join] puts between list items. *)
Definition nl : string := String "010"%char EmptyString.

Section Routes.
Context {env : Environ} {fw : Framework} {bi : Builtins} {cl : Climate}.

(** ['{}'.format(v)]: a string as it is, anything else through [repr]. *)
Definition py_str (v : pyval) : string :=
  match v with
  | PStr s => s
  | _ => py_repr v
  end.

Definition redirect (location : string) : response := Redirect location.

Definition render_ul (xs : list string) : string :=
  "<ul>" +:+ String.concat nl (map (fun x => "<li>" +:+ x +:+ "</li>") xs)
  +:+ "</ul>".

Definition render_field_link (field : pyval) : result string :=
  let* field_id := py_getitem field "id" in
  let* link := url_for "field" [("field_id", field_id)] in
  let* name := py_getitem field "name" in
  Ok ("<a href=" +:+ dq +:+ link +:+ dq +:+ ">" +:+ py_str name
      +:+ " (" +:+ py_str field_id +:+ ")</a>").

Definition render_activitiy_link (activity : pyval) (link : string)
  : result string :=
  let* activity_id := py_getitem activity "id" in
  let* length := py_getitem activity "length" in
  let link :=
    link +:+ "/" +:+ py_str activity_id +:+ "/contents?length="
    +:+ py_str length in
  Ok ("
            " +:+ py_str activity_id +:+ " : <a href=" +:+ dq +:+ link +:+ dq
      +:+ "> Get contents </a>
            <p><pre>" +:+ json_dumps activity +:+ "</pre></p>
           ").

Definition redirect_uri : result string :=
  url_for "login_redirect" [("_external", PBool true)].

(** *** [/home] *)

Definition no_user_page (url : string) : string :=
  "
            <h1>Partner API Demo Site</h1>
            <h2>Welcome to the Climate Partner Demo App.</h2>
            <p>Imagine that this page is your great web application and you
            want to connect it with Climate FieldView. To do this, you need
            to let your users establish a secure connection between your app
            and FieldView. You do this using Log In with FieldView.</p>
            <p style=" +:+ dq +:+ "text-align:center" +:+ dq +:+ "><a href="
  +:+ dq +:+ url +:+ dq +:+ ">
            <img src=" +:+ dq +:+ "./res/fv-login-button.png" +:+ dq
  +:+ "></a></p>".

Definition no_user_homepage : M response :=
  uri <- lift redirect_uri;;
  url <- climate_call "login_uri"
           (login_uri CLIMATE_API_ID CLIMATE_API_SCOPES uri);;
  ret (Html (no_user_page url)).

Definition user_page
  (first last access_token refresh_token fields upload logout refresh
   scouting_observations as_planted as_harvested as_applied : string)
  : string :=
  "
           <h1>Partner API Demo Site</h1>
           <p>User name retrieved from FieldView: " +:+ first +:+ " "
  +:+ last +:+ "</p>
           <p>Access Token: " +:+ access_token +:+ "</p>
           <p>Refresh Token: " +:+ refresh_token +:+ "
           (<a href=" +:+ dq +:+ refresh +:+ dq +:+ ">Refresh</a>)</p>
           <table style=" +:+ dq +:+ "border-spacing: 50px 0;" +:+ dq
  +:+ "><tr><td>
           <p>Your Climate fields:" +:+ fields +:+ "</p>
           <p><a href=" +:+ dq +:+ upload +:+ dq +:+ ">Upload data</a></p>
           <p><a href=" +:+ dq +:+ scouting_observations +:+ dq
  +:+ ">Scouting Observations</a></p>
           </td><td>
           <p>Your fields activities:</p>
           <p><a href=" +:+ dq +:+ as_planted +:+ dq +:+ " > asPlanted </a></p>
           <p><a href=" +:+ dq +:+ as_harvested +:+ dq
  +:+ " > asHarvested </a></p>
           <p><a href=" +:+ dq +:+ as_applied +:+ dq +:+ " > asApplied</a></p>
           </td></tr></table>
           <p><a href=" +:+ dq +:+ logout +:+ dq +:+ ">Log out</a></p>
           ".

Definition user_homepage : M response :=
  fields <- stateM "fields";;
  fs <- lift (py_iter fields);;
  links <- lift (mapR render_field_link fs);;
  let field_list := render_ul links in
  user <- stateM "user";;
  first <- lift (py_getitem user "firstname");;
  user <- stateM "user";;
  last <- lift (py_getitem user "lastname");;
  access_token <- stateM "access_token";;
  refresh_token <- stateM "refresh_token";;
  upload <- lift (url_for "upload_form" []);;
  logout <- lift (url_for "logout_redirect" []);;
  refresh <- lift (url_for "refresh_token" []);;
  scouting_observations <- lift (url_for "scouting_observations" []);;
  as_planted <- lift (url_for "as_planted" []);;
  as_harvested <- lift (url_for "as_harvested" []);;
  as_applied <- lift (url_for "as_applied" []);;
  ret (Html (user_page (py_str first) (py_str last) (py_str access_token)
               (py_str refresh_token) field_list upload logout refresh
               scouting_observations as_planted as_harvested as_applied)).

Definition home : M response :=
  user <- stateM "user";;
  if truthy user then user_homepage else no_user_homepage.

(** *** [/login-redirect], [/refresh-token], [/logout-redirect] *)

Definition login_redirect (req : request) : M response :=
  code <- lift (args_getitem req "code");;
  _ <- (if truthy (PStr code) then
          uri <- lift redirect_uri;;
          resp <- climate_call "authorize"
                    (authorize code CLIMATE_API_ID CLIMATE_API_SECRET uri);;
          if truthy resp then
            access_token <- lift (py_getitem resp "access_token");;
            refresh_token <- lift (py_getitem resp "refresh_token");;
            user <- lift (py_getitem resp "user");;
            _ <- set_stateM {[ "user" := user;
                               "access_token" := access_token;
                               "refresh_token" := refresh_token ]};;
            fields <- climate_call "get_fields"
                        (get_fields access_token CLIMATE_API_KEY);;
            set_stateM {[ "fields" := fields ]}
          else ret tt
        else ret tt);;
  home_url <- lift (url_for "home" []);;
  ret (redirect home_url).

Definition refresh_token : M response :=
  old <- stateM "refresh_token";;
  resp <- climate_call "reauthorize"
            (reauthorize old CLIMATE_API_ID CLIMATE_API_SECRET);;
  _ <- (if truthy resp then
          access_token <- lift (py_getitem resp "access_token");;
          refresh_token <- lift (py_getitem resp "refresh_token");;
          user <- lift (py_getitem resp "user");;
          set_stateM {[ "user" := user;
                        "access_token" := access_token;
                        "refresh_token" := refresh_token ]}
        else ret tt);;
  home_url <- lift (url_for "home" []);;
  ret (redirect home_url).

Definition logout_redirect : M response :=
  _ <- clear_stateM;;
  home_url <- lift (url_for "home" []);;
  ret (redirect home_url).

(** *** [/field/<field_id>] *)

(** [[f for f in fields if f['id'] == field_id]]: every element is
    subscripted, in order, so one element without an [id] makes the whole
    comprehension raise. *)
Fixpoint fields_with_id (field_id : string) (fields : list pyval)
  : result (list pyval) :=
  match fields with
  | [] => Ok []
  | f :: rest =>
      let* v := py_getitem f "id" in
      let* found := fields_with_id field_id rest in
      Ok (if py_eq_str v field_id then f :: found else found)
  end.

(** [xs[0]] *)
Definition first_item (xs : list pyval) : result pyval :=
  match xs with
  | x :: _ => Ok x
  | [] => Raise IndexError
  end.

(** The first statement of [field]: the record picked for [field_id]. *)
Definition lookup_field (fields : pyval) (field_id : string) : result pyval :=
  let* fs := py_iter fields in
  let* found := fields_with_id field_id fs in
  first_item found.

Definition field_page (name boundary home_url : string) : string :=
  "
           <h1>Partner API Demo Site</h1>
           <h2>Field Name: " +:+ name +:+ "</h2>
           <p>Boundary info:<pre>" +:+ boundary +:+ "</pre></p>
           <p><a href=" +:+ dq +:+ home_url +:+ dq +:+ ">Return home</a></p>
           ".

(** The rest of [field], once the record is picked. *)
Definition show_field (field : pyval) : M response :=
  boundary_id <- lift (py_getitem field "boundaryId");;
  access_token <- stateM "access_token";;
  boundary <- climate_call "get_boundary"
                (get_boundary boundary_id access_token CLIMATE_API_KEY);;
  name <- lift (py_getitem field "name");;
  home_url <- lift (url_for "home" []);;
  ret (Html (field_page (py_str name) (json_dumps boundary) home_url)).

Definition field (field_id : string) : M response :=
  fields <- stateM "fields";;
  field <- lift (lookup_field fields field_id);;
  show_field field.

(** *** [/scouting-observation/<id>/attachments/<attachment_id>] *)

Definition scouting_observation_attachments_contents
  (req : request) (scouting_observation_id attachment_id : string)
  : M response :=
  let content_type := args_get req "contentType" in
  length <- lift (py_int (args_get req "length"));;
  let headers := [("Content-type", "image/jpeg")] in
  access_token <- stateM "access_token";;
  content <- climate_call "get_scouting_observation_attachments_contents"
               (get_scouting_observation_attachments_contents
                  access_token CLIMATE_API_KEY scouting_observation_id
                  attachment_id content_type length);;
  ret (Stream content headers).

(** *** The activity listings *)

Definition get_callee (activity : string)
  : result (pyval -> string -> pyval -> result (pyval * pyval)) :=
  let method := "get_" +:+ activity in
  match climate_getattr method with
  | Some f => Ok f
  | None => Raise (AttributeError method)
  end.

(** The value of [body] after the [if activities is not None] statement. *)
Definition activity_body (activity : string) (activities : pyval)
  : result string :=
  if is_not_None activities then
    let* xs := py_iter activities in
    let* items :=
      mapR (fun a =>
              let* link := url_for activity [] in
              render_activitiy_link a link) xs in
    let activities_list := render_ul items in
    Ok ("<p>Your Climate " +:+ activity +:+ " activities:"
        +:+ activities_list +:+ "</p>")
  else Ok "<p>No data found!</p>".

Definition more_records_link (next_link : string) : string :=
  "<p><a href='" +:+ next_link
  +:+ "'>More records >>                            </a></p>".

(** The value of [more_records_html] after the
    [if has_more_records is not None] statement. *)
Definition more_records (activity : string) (has_more_records : pyval)
  : result string :=
  if is_not_None has_more_records then
    let* next_link := url_for activity [("next_token", has_more_records)] in
    Ok (more_records_link next_link)
  else Ok EmptyString.

Definition activity_page (body more_records_html home_url : string) : string :=
  "
            <h1>Partner API Demo Site</h1>
            " +:+ body +:+ "
            " +:+ more_records_html +:+ "
            <p><a href='" +:+ home_url +:+ "'>Return home</a></p>
            ".

Definition handle_activity (activity : string) (req : request) : M response :=
  let next_token := args_get req "next_token" in
  callee <- lift (get_callee activity);;
  access_token <- stateM "access_token";;
  answer <- climate_call ("get_" +:+ activity)
              (callee access_token CLIMATE_API_KEY next_token);;
  let has_more_records := fst answer in
  let activities := snd answer in
  body <- lift (activity_body activity activities);;
  more_records_html <- lift (more_records activity has_more_records);;
  home_url <- lift (url_for "home" []);;
  ret (Html (activity_page body more_records_html home_url)).

Definition as_planted (req : request) : M response :=
  handle_activity "as_planted" req.

Definition as_harvested (req : request) : M response :=
  handle_activity "as_harvested" req.

Definition as_applied (req : request) : M response :=
  handle_activity "as_applied" req.

End Routes.

(** ** The application as a transition system *)

(** The requests the modelled routes serve, and the two store operations
    that code may also call directly.  The routes of [main.py] left out
    (upload, upload status, the scouting observation pages, the activity
    download and the static files) only read the store through [state]. *)
Inductive operation : Type :=
| GetHome
| GetLoginRedirect (req : request)
| GetRefreshToken
| GetLogoutRedirect
| GetField (field_id : string)
| GetAttachmentContents (req : request)
    (scouting_observation_id attachment_id : string)
| GetActivity (activity : string) (req : request)
| CallSetState (kwargs : gmap string pyval)
| CallClearState
| CallState (key : string).

Section Run.
Context {env : Environ} {fw : Framework} {bi : Builtins} {cl : Climate}.

(** The world after an operation, whether it returned or raised. *)
Definition run (op : operation) (w : world) : world :=
  match op with
  | GetHome => snd (home w)
  | GetLoginRedirect req => snd (login_redirect req w)
  | GetRefreshToken => snd (refresh_token w)
  | GetLogoutRedirect => snd (logout_redirect w)
  | GetField field_id => snd (field field_id w)
  | GetAttachmentContents req soid aid =>
      snd (scouting_observation_attachments_contents req soid aid w)
  | GetActivity activity req => snd (handle_activity activity req w)
  | CallSetState kwargs => snd (set_stateM kwargs w)
  | CallClearState => snd (clear_stateM w)
  | CallState key => snd (stateM key w)
  end.

(** [_state = {}] when the module is loaded, no client call made yet. *)
Definition initial : world := World ∅ [].

Inductive reachable : world -> Prop :=
| reachable_initial : reachable initial
| reachable_run op w : reachable w -> reachable (run op w).

End Run.

(** ** A sample deployment

    Concrete collaborators on which the routes can be evaluated: a URL
    builder that appends the keyword values as a query string, an [int]
    for plain decimal numbers, and a client that answers with fixed
    data. *)
Module Demo.

Definition environ : Environ := {|
  CLIMATE_API_ID := "partner-id";
  CLIMATE_API_SECRET := "partner-secret";
  CLIMATE_API_SCOPES := "fields:read";
  CLIMATE_API_KEY := "partner-key"
|}.

Definition repr (v : pyval) : string :=
  match v with
  | PNone => "None"
  | PBool true => "True"
  | PBool false => "False"
  | PInt n => NilZero.string_of_int (Z.to_int n)
  | PStr s => "'" +:+ s +:+ "'"
  | PList _ => "[...]"
  | PDict _ => "{...}"
  end.

Definition show (v : pyval) : string :=
  match v with
  | PStr s => s
  | _ => repr v
  end.

Fixpoint query (sep : string) (kwargs : list (string * pyval)) : string :=
  match kwargs with
  | [] => EmptyString
  | (k, v) :: rest => sep +:+ k +:+ "=" +:+ show v +:+ query "&" rest
  end.

Definition framework : Framework := {|
  url_for endpoint kwargs := Ok ("/" +:+ endpoint +:+ query "?" kwargs);
  json_dumps := repr;
  py_repr := repr
|}.

Definition digit_of (c : ascii) : option Z :=
  let n := nat_of_ascii c in
  if ((48 <=? n) && (n <=? 57))%nat then Some (Z.of_nat n - 48) else None.

Fixpoint decimal (acc : Z) (s : string) : option Z :=
  match s with
  | EmptyString => Some acc
  | String c rest =>
      match digit_of c with
      | Some d => decimal (10 * acc + d) rest
      | None => None
      end
  end.

(** A sample [int]: a run of ASCII digits is read in base ten, any other
    text is refused. *)
Definition builtins : Builtins := {|
  int_str s :=
    match s with
    | EmptyString => Raise ValueError
    | String _ _ =>
        match decimal 0 s with
        | Some n => Ok n
        | None => Raise ValueError
        end
    end
|}.

Definition ada : pyval :=
  PDict [("firstname", PStr "Ada"); ("lastname", PStr "Lovelace")].

Definition tokens (access refresh : string) : pyval :=
  PDict [("access_token", PStr access); ("refresh_token", PStr refresh);
         ("user", ada)].

Definition north_field : pyval :=
  PDict [("id", PStr "a"); ("name", PStr "North"); ("boundaryId", PStr "ba")].

Definition south_field : pyval :=
  PDict [("id", PStr "b"); ("name", PStr "South"); ("boundaryId", PStr "bb")].

Definition is_activity_getter (name : string) : bool :=
  String.eqb name "get_as_planted" || String.eqb name "get_as_harvested"
  || String.eqb name "get_as_applied".

(** A client whose activity getters all answer [answer]. *)
Definition climate (answer : pyval * pyval) : Climate := {|
  login_uri id scopes uri :=
    Ok ("https://climate.com/login?client_id=" +:+ id +:+ "&scope=" +:+ scopes
        +:+ "&redirect_uri=" +:+ uri);
  authorize code id secret uri := Ok (tokens "A1" "R1");
  reauthorize old id secret := Ok (tokens "A2" "R2");
  get_fields access_token key := Ok (PList [north_field; south_field]);
  get_boundary boundary_id access_token key := Ok (PDict []);
  get_scouting_observation_attachments_contents
    access_token key soid aid content_type length :=
    Ok [Byte.x89; Byte.x50; Byte.x4e; Byte.x47];
  climate_getattr name :=
    if is_activity_getter name then Some (fun _ _ _ => Ok answer) else None
|}.

(** A logged-in session, as [login_redirect] leaves it with this client. *)
Definition logged_in : world :=
  World {[ "access_token" := PStr "A1"; "refresh_token" := PStr "R1";
           "user" := ada; "fields" := PList [north_field; south_field] ]}
        ["authorize"; "get_fields"].

End Demo.

(** ** Vocabulary of the statements *)

(** The page is the one [no_user_homepage] formats, for some login link. *)
Definition is_no_user_view (page : string) : Prop :=
  exists url, page = no_user_page url.

(** The page is the one [user_homepage] formats, for some values of its
    twelve placeholders. *)
Definition is_user_view (page : string) : Prop :=
  exists first last access_token refresh_token fields upload logout refresh
         scouting_observations as_planted as_harvested as_applied,
    page = user_page first last access_token refresh_token fields upload
             logout refresh scouting_observations as_planted as_harvested
             as_applied.

(** The test of the comprehension in [field] on one record, [False] where
    the subscript raises. *)
Definition id_is (field_id : string) (f : pyval) : bool :=
  match py_getitem f "id" with
  | Ok v => py_eq_str v field_id
  | Raise _ => false
  end.

(** A computation keeps the store inside the four keys. *)
Definition keeps_keys {A} (m : M A) : Prop :=
  forall w, dom (_state w) ⊆ session_keys ->
            dom (_state (snd (m w))) ⊆ session_keys.

(** The text [m] occurs somewhere in [s]. *)
Definition occurs (m s : string) : Prop :=
  exists pre post, s = pre +:+ m +:+ post.

(** The text [s] starts with [m]. *)
Definition prefix_of (m s : string) : Prop :=
  exists post, s = m +:+ post.



(** ** The remaining routes: upload, scouting observations, downloads *)

(** [FileStorage]: the part of an uploaded file that [upload_form] looks
    at, its [stream] attribute. *)
Record file_storage : Type := FileStorage {
  stream : option (list Byte.byte)
}.

(** The other attributes of the Flask request: [request.method],
    [request.files] and [request.form]. *)
Record form_request : Type := FormRequest {
  method : string;
  files : list (string * file_storage);
  form : list (string * string)
}.

(** [request.form[key]] *)
Definition form_getitem (req : form_request) (key : string) : result string :=
  match assoc key (form req) with
  | Some s => Ok s
  | None => Raise (BadRequestKeyError key)
  end.

(** [v.get(key)]: only a dictionary has the method; a missing key gives
    [None]. *)
Definition py_get (v : pyval) (key : string) : result pyval :=
  match v with
  | PDict items =>
      match assoc key items with
      | Some x => Ok x
      | None => Ok PNone
      end
  | _ => Raise (AttributeError "get")
  end.

(** The functions of the [climate] module that these routes call. *)
Class ClimateData : Type := {
  upload : file_storage -> string -> pyval -> string -> result pyval;
  get_upload_status : pyval -> pyval -> string -> result pyval;
  get_scouting_observation : pyval -> string -> string -> result pyval;
  get_scouting_observations : pyval -> string -> Z -> result pyval;
  get_scouting_observation_attachments :
    pyval -> string -> string -> result pyval;
  climate_get_activity_contents :
    pyval -> string -> string -> string -> Z -> result (list Byte.byte)
}.

Section MoreRoutes.
Context {env : Environ} {fw : Framework} {bi : Builtins} {cd : ClimateData}.

(** *** [/upload] and [/upload/<upload_id>] *)

Definition upload_form_page (home_url : string) : string :=
  "
           <h1>Partner API Demo Site</h1>
           <h2>Upload data</h2>
           <form method=post enctype=multipart/form-data>
           <p>Content type:<input type=text name=file_content_type /></p>
           <p><input type=file name=file /></p>
           <p><input type=submit value=Upload /></p>
           </form>
           <p><a href=" +:+ dq +:+ home_url +:+ dq +:+ ">Return home</a></p>
           ".

Definition uploaded_page (upload_id status_url home_url : string) : string :=
  "
            <h1>Partner API Demo Site</h1>
            <h2>Upload data</h2>
            <p>File uploaded: " +:+ upload_id +:+ "
            <a href='" +:+ status_url +:+ "'>Get Status</a></p>
            <p><a href=" +:+ dq +:+ home_url +:+ dq +:+ ">Return home</a></p>
            ".

Definition upload_form (req : form_request) : M response :=
  if String.eqb (method req) "POST" then
    match assoc "file" (files req) with
    | None =>
        again <- lift (url_for "upload_form" []);;
        ret (redirect again)
    | Some f =>
        match stream f with
        | None =>
            again <- lift (url_for "upload_form" []);;
            ret (redirect again)
        | Some _ =>
            content_type <- lift (form_getitem req "file_content_type");;
            access_token <- stateM "access_token";;
            upload_id <- climate_call "upload"
                           (upload f content_type access_token
                              CLIMATE_API_KEY);;
            status_url <- lift (url_for "update_status"
                                  [("upload_id", upload_id)]);;
            home_url <- lift (url_for "home" []);;
            ret (Html (uploaded_page (py_str upload_id) status_url home_url))
        end
    end
  else
    home_url <- lift (url_for "home" []);;
    ret (Html (upload_form_page home_url)).

Definition update_status_page (upload_id status home_url : string) : string :=
  "
           <h1>Partner API Demo Site</h1>
           <h2>Upload ID: " +:+ upload_id +:+ "</h2>
           <p>Status: " +:+ status +:+ " <a href=" +:+ dq +:+ "#" +:+ dq
  +:+ " onclick=" +:+ dq +:+ "location.reload();" +:+ dq +:+ ">
           Refresh</a></p>
           <p><a href=" +:+ dq +:+ home_url +:+ dq +:+ ">Return home</a></p>
           ".

Definition update_status (upload_id : string) : M response :=
  access_token <- stateM "access_token";;
  status <- climate_call "get_upload_status"
              (get_upload_status (PStr upload_id) access_token
                 CLIMATE_API_KEY);;
  shown <- lift (py_get status "status");;
  home_url <- lift (url_for "home" []);;
  ret (Html (update_status_page upload_id (py_str shown) home_url)).

(** *** The scouting observation pages *)

Definition render_scouting_observation_link (scouting_observation : pyval)
  : result string :=
  let* oid := py_getitem scouting_observation "id" in
  let* link := url_for "scouting_observation"
                 [("scouting_observation_id", oid)] in
  Ok ("<a href=" +:+ dq +:+ link +:+ dq +:+ ">" +:+ py_str oid +:+ "</a>").

Definition render_attachment_link
  (scouting_observation_id : string) (attachment : pyval) : result string :=
  let* attachment_id := py_getitem attachment "id" in
  let* status := py_getitem attachment "status" in
  let* link :=
    if py_eq_str status "DELETED" then Ok EmptyString
    else
      let* content_type := py_getitem attachment "contentType" in
      let* length := py_getitem attachment "length" in
      let* url := url_for "scouting_observation_attachments_contents"
                    [("scouting_observation_id", PStr scouting_observation_id);
                     ("attachment_id", attachment_id);
                     ("contentType", content_type);
                     ("length", length)] in
      Ok (": <a href=" +:+ dq +:+ url +:+ dq +:+ " >Get contents</a>") in
  Ok ("<h2>" +:+ py_str attachment_id +:+ link +:+ "</h2>
            <p><pre>" +:+ json_dumps attachment +:+ "</pre></p>
            ").

Definition scouting_observation_page
  (scouting_observation_id json observations attachments home_url : string)
  : string :=
  "
        <h1>Partner API Demo Site</h1>
        <h2>Scouting Observation ID: " +:+ scouting_observation_id +:+ "</h2>
        <p><pre>" +:+ json +:+ "</pre></p>
        <p><a href='" +:+ attachments +:+ "'>List attachments</a></p>
        <p><a href='" +:+ observations
  +:+ "'>Return to Observations list</a></p>
        <p><a href='" +:+ home_url +:+ "'>Return home</a></p>
        ".

Definition scouting_observation (scouting_observation_id : string)
  : M response :=
  access_token <- stateM "access_token";;
  observation <- climate_call "get_scouting_observation"
                   (get_scouting_observation access_token CLIMATE_API_KEY
                      scouting_observation_id);;
  observations <- lift (url_for "scouting_observations" []);;
  attachments <- lift (url_for "scouting_observation_attachments"
                         [("scouting_observation_id",
                           PStr scouting_observation_id)]);;
  home_url <- lift (url_for "home" []);;
  ret (Html (scouting_observation_page scouting_observation_id
               (json_dumps observation) observations attachments home_url)).

(** The value of [body] in [scouting_observations] after its [if]. *)
Definition observations_body (observations : pyval) : result string :=
  if truthy observations then
    let* xs := py_iter observations in
    let* items := mapR render_scouting_observation_link xs in
    Ok ("<p>Your Climate Scouting Observations:        "
        +:+ render_ul items +:+ "</p>")
  else Ok "<p>No Scouting Observations found!</p>".

Definition listing_page (body home_url : string) : string :=
  "
            <h1>Partner API Demo Site</h1>
            " +:+ body +:+ "
            <p><a href='" +:+ home_url +:+ "'>Return home</a></p>
            ".

Definition scouting_observations : M response :=
  access_token <- stateM "access_token";;
  observations <- climate_call "get_scouting_observations"
                    (get_scouting_observations access_token CLIMATE_API_KEY
                       100);;
  body <- lift (observations_body observations);;
  home_url <- lift (url_for "home" []);;
  ret (Html (listing_page body home_url)).

(** The value of [body] in [scouting_observation_attachments] after its
    [if]. *)
Definition attachments_body (scouting_observation_id : string) (ats : pyval)
  : result string :=
  if truthy ats then
    let* xs := py_iter ats in
    let* items := mapR (render_attachment_link scouting_observation_id) xs in
    Ok ("<p>Your Climate Scouting Observations attachments:        "
        +:+ render_ul items +:+ "</p>")
  else Ok "<p>No attachments found!</p>".

Definition attachments_page
  (body attachments soid home_url : string) : string :=
  "
            <h1>Partner API Demo Site</h1>
            " +:+ body +:+ "
            <p><a href='" +:+ attachments +:+ "'>Return to Observation:"
  +:+ soid +:+ "</a></p>
            <p><a href='" +:+ home_url +:+ "'>Return home</a></p>
            ".

Definition scouting_observation_attachments
  (scouting_observation_id : string) : M response :=
  access_token <- stateM "access_token";;
  ats <- climate_call "get_scouting_observation_attachments"
           (get_scouting_observation_attachments access_token
              CLIMATE_API_KEY scouting_observation_id);;
  body <- lift (attachments_body scouting_observation_id ats);;
  home_url <- lift (url_for "home" []);;
  attachments <- lift (url_for "scouting_observation"
                         [("scouting_observation_id",
                           PStr scouting_observation_id)]);;
  ret (Html (attachments_page body attachments scouting_observation_id
               home_url)).

(** *** [/layers/<layer_id>/<activity_id>/contents] *)

Definition get_activity_contents
  (req : request) (layer_id activity_id : string) : M response :=
  length <- lift (py_int (args_get req "length"));;
  access_token <- stateM "access_token";;
  content <- climate_call "get_activity_contents"
               (climate_get_activity_contents access_token CLIMATE_API_KEY
                  layer_id activity_id length);;
  ret (Stream content
         [("Content-Type", "application/zip");
          ("Content-Disposition", "attachment; filename=data.zip")]).

End MoreRoutes.

(** A sample client for these routes. *)
Module DemoData.

Definition photo : pyval :=
  PDict [("id", PStr "p1"); ("status", PStr "ACTIVE");
         ("contentType", PStr "image/jpeg"); ("length", PInt 2048)].

Definition deleted_photo : pyval :=
  PDict [("id", PStr "p2"); ("status", PStr "DELETED")].

Definition climate (observations : pyval) : ClimateData := {|
  upload f content_type access_token key := Ok (PStr "upload-7");
  get_upload_status upload_id access_token key :=
    Ok (PDict [("status", PStr "INBOX")]);
  get_scouting_observation access_token key soid :=
    Ok (PDict [("id", PStr soid)]);
  get_scouting_observations access_token key limit := Ok observations;
  get_scouting_observation_attachments access_token key soid :=
    Ok (PList [photo; deleted_photo]);
  climate_get_activity_contents access_token key layer activity length :=
    Ok [Byte.x50; Byte.x4b]
|}.

End DemoData.

(** A client whose answers to authorize, get_fields and reauthorize are
    chosen, to look at the failure paths of login and refresh. *)
Module DemoFaults.

Definition climate (authorized fields reauthorized : result pyval)
  : Climate := {|
  login_uri id scopes uri := Ok ("https://climate.com/login?uri=" +:+ uri);
  authorize code id secret uri := authorized;
  reauthorize old id secret := reauthorized;
  get_fields access_token key := fields;
  get_boundary boundary_id access_token key := Raise (ClientError "503");
  get_scouting_observation_attachments_contents
    access_token key soid aid content_type length :=
    Raise (ClientError "503");
  climate_getattr name := None
|}.

End DemoFaults.

(** A computation leaves the store as it found it, whether it returns or
    raises. *)
Definition reads_only {A} (m : M A) : Prop :=
  forall w, _state (snd (m w)) = _state w.

(** A computation makes no client call. *)
Definition calls_nothing {A} (m : M A) : Prop :=
  forall w, calls (snd (m w)) = calls w.

(** * Properties *)

(** ** The session store *)

Lemma elem_of_session_keys (k : string) :
  k ∈ session_keys <->
  k = "access_token" \/ k = "refresh_token" \/ k = "user" \/ k = "fields".
Proof. unfold session_keys. set_solver. Qed.

(** One equation for every read after a [set_state]: a known key that the
    call names takes the call's value, everything else is as before. *)
Lemma set_state_lookup (kwargs st : gmap string pyval) (k : string) :
  set_state kwargs st !! k =
  if decide (k ∈ session_keys)
  then match kwargs !! k with Some v => Some v | None => st !! k end
  else st !! k.
Proof.
  unfold set_state.
  destruct (decide (k ∈ session_keys)) as [Hin | Hout].
  - apply elem_of_session_keys in Hin.
    destruct Hin as [-> | [-> | [-> | ->]]];
      destruct (kwargs !! "access_token"), (kwargs !! "refresh_token"),
        (kwargs !! "user"), (kwargs !! "fields");
      simplify_map_eq; reflexivity.
  - assert (k <> "access_token" /\ k <> "refresh_token" /\ k <> "user"
            /\ k <> "fields") as (? & ? & ? & ?).
    { rewrite elem_of_session_keys in Hout. repeat split; intros ->; tauto. }
    destruct (kwargs !! "access_token"), (kwargs !! "refresh_token"),
      (kwargs !! "user"), (kwargs !! "fields");
      simplify_map_eq; reflexivity.
Qed.

Lemma set_state_dom (kwargs st : gmap string pyval) :
  dom (set_state kwargs st) ⊆ dom st ∪ session_keys.
Proof.
  intros k Hk. apply elem_of_dom in Hk. rewrite set_state_lookup in Hk.
  destruct (decide (k ∈ session_keys)); [set_solver |].
  apply elem_of_union_l, elem_of_dom, Hk.
Qed.

Lemma state_set_state (kwargs st : gmap string pyval) (k : string) :
  state (set_state kwargs st) k =
  if decide (k ∈ session_keys)
  then match kwargs !! k with Some v => v | None => state st k end
  else state st k.
Proof.
  unfold state. rewrite set_state_lookup.
  destruct (decide (k ∈ session_keys)); [| reflexivity].
  destruct (kwargs !! k); reflexivity.
Qed.

(** C4: a call of [set_state] that names only some of the four keys gives
    each named key the value passed and leaves every other key as it was,
    both in the dictionary and as [state] reads it; after
    [set_state(access_token=T)], [state('refresh_token')] is what it was. *)
Theorem set_state_partial_update
  (kwargs st : gmap string pyval) (T : pyval) :
  dom kwargs ⊆ session_keys ->
  (forall k v, kwargs !! k = Some v -> state (set_state kwargs st) k = v) /\
  (forall k, kwargs !! k = None ->
     set_state kwargs st !! k = st !! k /\
     state (set_state kwargs st) k = state st k) /\
  state (set_state {[ "access_token" := T ]} st) "refresh_token"
  = state st "refresh_token".
Proof.
  intros Hdom. split; [| split].
  - intros k v Hk. rewrite state_set_state, Hk.
    rewrite decide_True; [reflexivity |].
    apply Hdom, elem_of_dom. eauto.
  - intros k Hk. split.
    + rewrite set_state_lookup, Hk. destruct (decide _); reflexivity.
    + rewrite state_set_state, Hk. destruct (decide _); reflexivity.
  - rewrite state_set_state. rewrite decide_True by (unfold session_keys; set_solver).
    rewrite lookup_singleton_ne by discriminate. reflexivity.
Qed.

Lemma set_state_partial_update_witness :
  dom ({[ "access_token" := PStr "T" ]} : gmap string pyval) ⊆ session_keys /\
  state (set_state {[ "access_token" := PStr "T" ]}
           {[ "refresh_token" := PStr "R"; "user" := Demo.ada ]})
        "access_token" = PStr "T" /\
  state (set_state {[ "access_token" := PStr "T" ]}
           {[ "refresh_token" := PStr "R"; "user" := Demo.ada ]})
        "refresh_token" = PStr "R".
Proof.
  assert (Hdom : dom ({[ "access_token" := PStr "T" ]} : gmap string pyval)
                 ⊆ session_keys).
  { rewrite dom_singleton_L. unfold session_keys. set_solver. }
  split; [exact Hdom |].
  destruct (set_state_partial_update {[ "access_token" := PStr "T" ]}
              {[ "refresh_token" := PStr "R"; "user" := Demo.ada ]}
              (PStr "T") Hdom) as (Hset & Hkeep & _).
  split.
  - apply Hset. reflexivity.
  - destruct (Hkeep "refresh_token") as [_ ->]; reflexivity.
Defined.

(** ** Logout *)

Section Logout.
Context {env : Environ} {fw : Framework} {cl : Climate}.

(** C5: after [clear_state()] every one of the four keys reads [None],
    whatever the session held before; the logout route does exactly that
    to the store, calls no client function, and answers with the redirect
    to the home route. *)
Theorem clear_state_all_absent (w : world) :
  (state (clear_state (_state w)) "user" = PNone /\
   state (clear_state (_state w)) "access_token" = PNone /\
   state (clear_state (_state w)) "refresh_token" = PNone /\
   state (clear_state (_state w)) "fields" = PNone) /\
  _state (snd (logout_redirect w)) = clear_state (_state w) /\
  calls (snd (logout_redirect w)) = calls w /\
  fst (logout_redirect w)
  = (let* home_url := url_for "home" [] in Ok (Redirect home_url)).
Proof.
  split; [| split; [| split]].
  - unfold clear_state. rewrite !state_set_state.
    repeat split; reflexivity.
  - unfold logout_redirect, bind, clear_stateM, lift, ret; simpl.
    destruct (url_for "home" []); reflexivity.
  - unfold logout_redirect, bind, clear_stateM, lift, ret; simpl.
    destruct (url_for "home" []); reflexivity.
  - unfold logout_redirect, bind, clear_stateM, lift, ret, redirect; simpl.
    destruct (url_for "home" []); reflexivity.
Qed.

End Logout.

(** ** The key set of the store *)

Lemma keeps_ret {A} (a : A) : keeps_keys (ret a).
Proof. intros w Hw. exact Hw. Qed.

Lemma keeps_lift {A} (r : result A) : keeps_keys (lift r).
Proof. intros w Hw. exact Hw. Qed.

Lemma keeps_stateM (key : string) : keeps_keys (stateM key).
Proof. intros w Hw. exact Hw. Qed.

Lemma keeps_climate_call {A} (name : string) (r : result A) :
  keeps_keys (climate_call name r).
Proof. intros w Hw. exact Hw. Qed.

Lemma keeps_set_stateM (kwargs : gmap string pyval) :
  keeps_keys (set_stateM kwargs).
Proof.
  intros w Hw. simpl.
  pose proof (set_state_dom kwargs (_state w)). set_solver.
Qed.

Lemma keeps_clear_stateM : keeps_keys clear_stateM.
Proof.
  intros w Hw. simpl. unfold clear_state.
  pose proof (set_state_dom
                {[ "access_token" := PNone; "refresh_token" := PNone;
                   "user" := PNone; "fields" := PNone ]} (_state w)).
  set_solver.
Qed.

Lemma keeps_bind {A B} (m : M A) (k : A -> M B) :
  keeps_keys m -> (forall a, keeps_keys (k a)) -> keeps_keys (bind m k).
Proof.
  intros Hm Hk w Hw. unfold bind.
  specialize (Hm w Hw). destruct (m w) as [[a | e] w']; simpl in *.
  - apply Hk, Hm.
  - exact Hm.
Qed.

Create HintDb keys.
#[export] Hint Resolve keeps_ret keeps_lift keeps_stateM keeps_climate_call
  keeps_set_stateM keeps_clear_stateM : keys.

Ltac keeps :=
  repeat first
    [ apply keeps_bind; [| intros ? ]
    | match goal with
      | |- keeps_keys (if ?b then _ else _) => destruct b
      end
    | solve [ auto with keys ] ].

Section Invariant.
Context {env : Environ} {fw : Framework} {bi : Builtins} {cl : Climate}.

Lemma keeps_no_user_homepage : keeps_keys no_user_homepage.
Proof. unfold no_user_homepage. keeps. Qed.

Lemma keeps_user_homepage : keeps_keys user_homepage.
Proof. unfold user_homepage. keeps. Qed.

Lemma keeps_home : keeps_keys home.
Proof. unfold home. keeps. Qed.

Lemma keeps_login_redirect req : keeps_keys (login_redirect req).
Proof. unfold login_redirect. keeps. Qed.

Lemma keeps_refresh_token : keeps_keys refresh_token.
Proof. unfold refresh_token. keeps. Qed.

Lemma keeps_logout_redirect : keeps_keys logout_redirect.
Proof. unfold logout_redirect. keeps. Qed.

Lemma keeps_field field_id : keeps_keys (field field_id).
Proof. unfold field, show_field. keeps. Qed.

Lemma keeps_attachment_contents req soid aid :
  keeps_keys (scouting_observation_attachments_contents req soid aid).
Proof. unfold scouting_observation_attachments_contents. keeps. Qed.

Lemma keeps_handle_activity activity req :
  keeps_keys (handle_activity activity req).
Proof. unfold handle_activity. keeps. Qed.

Lemma run_keeps_keys (op : operation) (w : world) :
  dom (_state w) ⊆ session_keys -> dom (_state (run op w)) ⊆ session_keys.
Proof.
  destruct op; simpl.
  - apply keeps_home.
  - apply keeps_login_redirect.
  - apply keeps_refresh_token.
  - apply keeps_logout_redirect.
  - apply keeps_field.
  - apply keeps_attachment_contents.
  - apply keeps_handle_activity.
  - apply keeps_set_stateM.
  - apply keeps_clear_stateM.
  - apply (keeps_stateM key).
Qed.

Lemma reachable_keys (w : world) :
  reachable w -> dom (_state w) ⊆ session_keys.
Proof.
  induction 1 as [| op w _ IH].
  - simpl. rewrite dom_empty_L. set_solver.
  - apply run_keeps_keys, IH.
Qed.

Lemma set_state_unknown (kwargs st : gmap string pyval) :
  dom kwargs ## session_keys -> set_state kwargs st = st.
Proof.
  intros Hdisj. apply map_eq. intros k. rewrite set_state_lookup.
  destruct (decide (k ∈ session_keys)) as [Hin |]; [| reflexivity].
  destruct (kwargs !! k) eqn:Hk; [| reflexivity].
  exfalso. apply (Hdisj k); [apply elem_of_dom; eauto | exact Hin].
Qed.

(** C8: in every world the application can reach, by any sequence of
    requests and direct store calls, the keys of [_state] are among the
    four; a [set_state] whose keywords are all outside the four leaves the
    whole dictionary as it was; and [state] on a key that is not in the
    dictionary returns [None]. *)
Theorem session_keys_invariant
  (w : world) (kwargs st : gmap string pyval) (key : string) :
  reachable w ->
  dom kwargs ## session_keys ->
  st !! key = None ->
  dom (_state w) ⊆ session_keys /\
  set_state kwargs st = st /\
  state st key = PNone.
Proof.
  intros Hw Hkw Hkey. split; [| split].
  - apply reachable_keys, Hw.
  - apply set_state_unknown, Hkw.
  - unfold state. rewrite Hkey. reflexivity.
Qed.

End Invariant.

Lemma session_keys_invariant_witness :
  let w := run (env := Demo.environ) (fw := Demo.framework)
               (bi := Demo.builtins) (cl := Demo.climate (PNone, PNone))
               (GetLoginRedirect (Request [("code", "c0de")])) initial in
  dom (_state w) ⊆ session_keys /\
  set_state {[ "colour" := PStr "red" ]} (_state w) = _state w /\
  state (_state w) "colour" = PNone.
Proof.
  intros w.
  apply (session_keys_invariant (env := Demo.environ) (fw := Demo.framework)
           (bi := Demo.builtins) (cl := Demo.climate (PNone, PNone))).
  - apply reachable_run, reachable_initial.
  - rewrite dom_singleton_L. unfold session_keys. set_solver.
  - reflexivity.
Defined.

(** ** Refresh *)

Lemma getitem_truthy (v x : pyval) (key : string) :
  py_getitem v key = Ok x -> truthy v = true.
Proof.
  destruct v as [| | | | | items]; simpl; try discriminate.
  destruct items; simpl; [discriminate | reflexivity].
Qed.

Section Refresh.
Context {env : Environ} {fw : Framework} {cl : Climate}.

(** C1, as the code has it: after a reauthorize answer that carries
    [access_token], [refresh_token] and [user], these three keys hold the
    answer's values; [fields] is not written and keeps the value it had
    before the refresh.  The route made one client call and answers with
    the redirect to the home route. *)
Theorem refresh_overwrites_tokens_and_user
  (w : world) (resp access refresh user : pyval) :
  reauthorize (state (_state w) "refresh_token")
              CLIMATE_API_ID CLIMATE_API_SECRET = Ok resp ->
  py_getitem resp "access_token" = Ok access ->
  py_getitem resp "refresh_token" = Ok refresh ->
  py_getitem resp "user" = Ok user ->
  state (_state (snd (refresh_token w))) "access_token" = access /\
  state (_state (snd (refresh_token w))) "refresh_token" = refresh /\
  state (_state (snd (refresh_token w))) "user" = user /\
  state (_state (snd (refresh_token w))) "fields" = state (_state w) "fields" /\
  calls (snd (refresh_token w)) = (calls w ++ ["reauthorize"])%list /\
  fst (refresh_token w)
  = (let* home_url := url_for "home" [] in Ok (Redirect home_url)).
Proof.
  intros Hresp Hacc Href Huser.
  pose proof (getitem_truthy _ _ _ Hacc) as Htrue.
  unfold refresh_token, bind, stateM, climate_call, lift, set_stateM, ret,
    redirect; simpl.
  rewrite Hresp, Htrue, Hacc, Href, Huser.
  destruct (url_for "home" []); simpl;
    rewrite !state_set_state; repeat split; reflexivity.
Qed.

End Refresh.

Lemma refresh_overwrites_tokens_and_user_witness :
  let w' := snd (refresh_token (env := Demo.environ) (fw := Demo.framework)
                   (cl := Demo.climate (PNone, PNone)) Demo.logged_in) in
  state (_state w') "access_token" = PStr "A2" /\
  state (_state w') "refresh_token" = PStr "R2" /\
  state (_state w') "user" = Demo.ada /\
  state (_state w') "fields" = state (_state Demo.logged_in) "fields" /\
  calls w' = (calls Demo.logged_in ++ ["reauthorize"])%list /\
  fst (refresh_token (env := Demo.environ) (fw := Demo.framework)
         (cl := Demo.climate (PNone, PNone)) Demo.logged_in)
  = Ok (Redirect "/home").
Proof.
  intros w'.
  apply (refresh_overwrites_tokens_and_user (env := Demo.environ)
           (fw := Demo.framework) (cl := Demo.climate (PNone, PNone))
           Demo.logged_in (Demo.tokens "A2" "R2"));
    reflexivity.
Defined.

(** C1 as stated fails on [fields]: refreshing a logged-in session leaves
    the cached field list of before the refresh in place, a value that is
    neither [None] nor anywhere in the reauthorize answer. *)
Lemma refresh_keeps_fields_counterexample :
  let w := Demo.logged_in in
  let cl := Demo.climate (PNone, PNone) in
  let w' := snd (refresh_token (env := Demo.environ) (fw := Demo.framework)
                   (cl := cl) w) in
  reauthorize (Climate := cl) (state (_state w) "refresh_token")
    "partner-id" "partner-secret" = Ok (Demo.tokens "A2" "R2") /\
  fst (refresh_token (env := Demo.environ) (fw := Demo.framework)
         (cl := cl) w) = Ok (Redirect "/home") /\
  py_getitem (Demo.tokens "A2" "R2") "fields" = Raise (KeyError "fields") /\
  state (_state w') "fields" = PList [Demo.north_field; Demo.south_field] /\
  state (_state w') "fields" = state (_state w) "fields" /\
  state (_state w') "fields" <> PNone.
Proof.
  repeat split; try reflexivity. discriminate.
Qed.

(** ** Attachment download *)

Section Attachment.
Context {env : Environ} {fw : Framework} {bi : Builtins} {cl : Climate}.

(** C2, as the code has it: when the [length] parameter of the request
    reads as an integer, the route asks the client with the request's
    [contentType] and that length and returns the client's bytes as the
    body; the [Content-type] header of the response is the constant
    [image/jpeg], whatever [contentType] the request carries. *)
Theorem attachment_contents_response
  (req : request) (soid aid : string) (w : world) (length : Z)
  (content : list Byte.byte) :
  py_int (args_get req "length") = Ok length ->
  get_scouting_observation_attachments_contents
    (state (_state w) "access_token") CLIMATE_API_KEY soid aid
    (args_get req "contentType") length = Ok content ->
  fst (scouting_observation_attachments_contents req soid aid w)
  = Ok (Stream content [("Content-type", "image/jpeg")]).
Proof.
  intros Hlen Hget.
  unfold scouting_observation_attachments_contents, bind, lift, stateM,
    climate_call, ret; simpl.
  rewrite Hlen. simpl. rewrite Hget. reflexivity.
Qed.

End Attachment.

Lemma attachment_contents_response_witness :
  let req := Request [("contentType", "image/jpeg"); ("length", "4")] in
  py_int (bi := Demo.builtins) (args_get req "length") = Ok 4 /\
  fst (scouting_observation_attachments_contents
         (env := Demo.environ) (bi := Demo.builtins)
         (cl := Demo.climate (PNone, PNone))
         req "obs-1" "att-1" Demo.logged_in)
  = Ok (Stream [Byte.x89; Byte.x50; Byte.x4e; Byte.x47]
          [("Content-type", "image/jpeg")]).
Proof.
  intros req. split; [reflexivity |].
  apply (attachment_contents_response (env := Demo.environ)
           (bi := Demo.builtins) (cl := Demo.climate (PNone, PNone))
           req "obs-1" "att-1" Demo.logged_in 4);
    reflexivity.
Defined.

(** C2 as stated fails: a request with [contentType=image/png] is answered
    with the header [Content-type: image/jpeg]. *)
Lemma attachment_content_type_counterexample :
  let req := Request [("contentType", "image/png"); ("length", "4")] in
  args_get req "contentType" = PStr "image/png" /\
  fst (scouting_observation_attachments_contents
         (env := Demo.environ) (bi := Demo.builtins)
         (cl := Demo.climate (PNone, PNone))
         req "obs-1" "att-1" Demo.logged_in)
  = Ok (Stream [Byte.x89; Byte.x50; Byte.x4e; Byte.x47]
          [("Content-type", "image/jpeg")]) /\
  assoc "Content-type" [("Content-type", "image/jpeg")] <> Some "image/png".
Proof.
  repeat split; try reflexivity. discriminate.
Qed.

(** ** Field lookup *)

Lemma id_is_true (field_id : string) (f : pyval) :
  id_is field_id f = true <-> py_getitem f "id" = Ok (PStr field_id).
Proof.
  unfold id_is. destruct (py_getitem f "id") as [v | e].
  - destruct v; simpl; try (split; [discriminate | intros [=]]).
    rewrite String.eqb_eq. split; [intros -> | intros [=]]; congruence.
  - split; discriminate.
Qed.

Lemma fields_with_id_filter (field_id : string) (fields : list pyval) :
  Forall (fun f => exists v, py_getitem f "id" = Ok v) fields ->
  fields_with_id field_id fields = Ok (List.filter (id_is field_id) fields).
Proof.
  induction 1 as [| f rest [v Hv] _ IH]; simpl; [reflexivity |].
  unfold id_is at 1. rewrite Hv, IH. simpl.
  destruct (py_eq_str v field_id); reflexivity.
Qed.

Lemma filter_first {A} (p : A -> bool) (l : list A) :
  match List.filter p l with
  | [] => Forall (fun x => p x = false) l
  | x :: _ =>
      exists pre post, l = (pre ++ x :: post)%list /\ p x = true /\
                       Forall (fun y => p y = false) pre
  end.
Proof.
  induction l as [| a l IH]; simpl; [constructor |].
  destruct (p a) eqn:Ha.
  - exists [], l. repeat split; [exact Ha | constructor].
  - destruct (List.filter p l) as [| x found].
    + constructor; assumption.
    + destruct IH as (pre & post & -> & Hx & Hpre).
      exists (a :: pre), post. repeat split; [exact Hx |].
      constructor; assumption.
Qed.

Section FieldDetail.
Context {env : Environ} {fw : Framework} {cl : Climate}.

(** C3: with a cached list of records that all carry an [id], the lookup
    is a linear scan.  If some record has the requested id, the first such
    record is selected and the route goes on with it; if none has, the
    lookup raises [IndexError], the route raises it without calling the
    client, and that is the only case in which the lookup raises. *)
Theorem field_lookup_by_id
  (w : world) (fields : list pyval) (field_id : string) :
  state (_state w) "fields" = PList fields ->
  Forall (fun f => exists v, py_getitem f "id" = Ok v) fields ->
  ((exists f, f ∈ fields /\ py_getitem f "id" = Ok (PStr field_id)) ->
   exists pre f post,
     fields = (pre ++ f :: post)%list /\
     py_getitem f "id" = Ok (PStr field_id) /\
     Forall (fun g => py_getitem g "id" <> Ok (PStr field_id)) pre /\
     lookup_field (PList fields) field_id = Ok f /\
     field field_id w = show_field f w) /\
  (~ (exists f, f ∈ fields /\ py_getitem f "id" = Ok (PStr field_id)) ->
   lookup_field (PList fields) field_id = Raise IndexError /\
   field field_id w = (Raise IndexError, w)) /\
  ((exists e, lookup_field (PList fields) field_id = Raise e) <->
   ~ (exists f, f ∈ fields /\ py_getitem f "id" = Ok (PStr field_id))).
Proof.
  intros Hstate Hwf.
  assert (Hlookup : lookup_field (PList fields) field_id
                    = first_item (List.filter (id_is field_id) fields)).
  { unfold lookup_field. simpl. rewrite (fields_with_id_filter _ _ Hwf).
    reflexivity. }
  assert (Hroute : forall r, lookup_field (PList fields) field_id = r ->
            field field_id w
            = match r with
              | Ok f => show_field f w
              | Raise e => (Raise e, w)
              end).
  { intros r <-. unfold field, bind, stateM, lift. rewrite Hstate.
    destruct (lookup_field (PList fields) field_id); reflexivity. }
  pose proof (filter_first (id_is field_id) fields) as Hfirst.
  destruct (List.filter (id_is field_id) fields) as [| f found] eqn:Hfilter;
    simpl in Hlookup.
  - assert (Hnone : ~ (exists f, f ∈ fields /\
                         py_getitem f "id" = Ok (PStr field_id))).
    { intros (f & Hin & Hid). rewrite Forall_forall in Hfirst.
      apply id_is_true in Hid. rewrite (Hfirst f Hin) in Hid. discriminate. }
    split; [intros Hex; contradiction | split].
    + intros _. split; [exact Hlookup | exact (Hroute _ Hlookup)].
    + split; [intros _; exact Hnone | intros _; eauto].
  - destruct Hfirst as (pre & post & Hsplit & Hf & Hpre).
    assert (Hsome : exists f, f ∈ fields /\
                      py_getitem f "id" = Ok (PStr field_id)).
    { exists f. split; [| apply id_is_true, Hf].
      rewrite Hsplit. apply elem_of_app. right. apply elem_of_cons. auto. }
    split; [| split].
    + intros _. exists pre, f, post.
      split; [exact Hsplit |]. split; [apply id_is_true, Hf |].
      split; [| split; [exact Hlookup | exact (Hroute _ Hlookup)]].
      eapply Forall_impl; [exact Hpre |]. simpl.
      intros g Hg Hid. apply id_is_true in Hid. congruence.
    + intros Hnone. contradiction.
    + split; [intros [e He]; congruence | intros Hnone; contradiction].
Qed.

End FieldDetail.

Lemma field_lookup_by_id_witness :
  let fields := [Demo.north_field; Demo.south_field] in
  state (_state Demo.logged_in) "fields" = PList fields /\
  Forall (fun f => exists v, py_getitem f "id" = Ok v) fields /\
  (exists f, lookup_field (PList fields) "b" = Ok f /\
             py_getitem f "id" = Ok (PStr "b")) /\
  lookup_field (PList fields) "c" = Raise IndexError.
Proof.
  intros fields.
  assert (Hwf : Forall (fun f => exists v, py_getitem f "id" = Ok v) fields).
  { repeat constructor; eexists; reflexivity. }
  split; [reflexivity |]. split; [exact Hwf |]. split.
  - destruct (field_lookup_by_id (env := Demo.environ) (fw := Demo.framework)
                (cl := Demo.climate (PNone, PNone))
                Demo.logged_in fields "b" eq_refl Hwf) as (Hfound & _ & _).
    destruct Hfound as (pre & f & post & _ & Hid & _ & Hlookup & _).
    + exists Demo.south_field. split; [| reflexivity].
      apply elem_of_cons. right. apply elem_of_cons. left. reflexivity.
    + exists f. split; assumption.
  - destruct (field_lookup_by_id (env := Demo.environ) (fw := Demo.framework)
                (cl := Demo.climate (PNone, PNone))
                Demo.logged_in fields "c" eq_refl Hwf) as (_ & Hmissing & _).
    apply Hmissing.
    intros (f & Hin & Hid).
    apply elem_of_cons in Hin as [-> | Hin]; [discriminate |].
    apply elem_of_cons in Hin as [-> | Hin]; [discriminate |].
    apply elem_of_nil in Hin. exact Hin.
Defined.

(** ** Text inside a page *)

Lemma append_assoc (a b c : string) : (a +:+ b) +:+ c = a +:+ (b +:+ c).
Proof.
  induction a as [| x a IH]; [reflexivity |].
  change (String x ((a +:+ b) +:+ c) = String x (a +:+ b +:+ c)).
  f_equal. exact IH.
Qed.

Lemma append_nil_r (a : string) : a +:+ EmptyString = a.
Proof.
  induction a as [| x a IH]; [reflexivity |].
  change (String x (a +:+ EmptyString) = String x a).
  f_equal. exact IH.
Qed.





(** Finding a text in a page: at the start, or further on. *)
Lemma prefix_nil (s : string) : prefix_of EmptyString s.
Proof. exists s. reflexivity. Qed.

Lemma prefix_cons (c : ascii) (m s : string) :
  prefix_of m s -> prefix_of (String c m) (String c s).
Proof. intros [post ->]. exists post. reflexivity. Qed.

Lemma prefix_app (a m s : string) :
  prefix_of m s -> prefix_of (a +:+ m) (a +:+ s).
Proof. intros [post ->]. exists post. rewrite append_assoc. reflexivity. Qed.

Lemma prefix_self (a s : string) : prefix_of a (a +:+ s).
Proof. exists s. reflexivity. Qed.

Lemma prefix_refl (a : string) : prefix_of a a.
Proof. exists EmptyString. rewrite append_nil_r. reflexivity. Qed.

Lemma occurs_prefix (m s : string) : prefix_of m s -> occurs m s.
Proof. intros [post ->]. exists EmptyString, post. reflexivity. Qed.

Lemma occurs_later (c : ascii) (m s : string) :
  occurs m s -> occurs m (String c s).
Proof. intros (pre & post & ->). exists (String c pre), post. reflexivity. Qed.

Lemma occurs_after (a m s : string) : occurs m s -> occurs m (a +:+ s).
Proof.
  intros (pre & post & ->). exists (a +:+ pre), post.
  rewrite append_assoc. reflexivity.
Qed.

(** Brings the first character of a text to the front. *)
Ltac string_head :=
  repeat match goal with
         | |- prefix_of (String ?c ?a +:+ ?b) ?s =>
             change (prefix_of (String c (a +:+ b)) s)
         | |- prefix_of (EmptyString +:+ ?b) ?s => change (prefix_of b s)
         | |- prefix_of ?m (String ?c ?a +:+ ?b) =>
             change (prefix_of m (String c (a +:+ b)))
         | |- prefix_of ?m (EmptyString +:+ ?b) => change (prefix_of m b)
         end.

Ltac prefix_here :=
  repeat (string_head;
          match goal with
          | |- prefix_of EmptyString _ => apply prefix_nil
          | |- prefix_of (String ?c _) (String ?c _) => apply prefix_cons
          | |- prefix_of ?a ?a => apply prefix_refl
          | |- prefix_of (?a +:+ _) (?a +:+ _) => apply prefix_app
          | |- prefix_of ?a (?a +:+ _) => apply prefix_self
          end).

(** Scans the page, once its template is unfolded, for the text. *)
Ltac find_text :=
  rewrite ?append_assoc;
  solve [ repeat first
            [ solve [apply occurs_prefix; prefix_here]
            | match goal with
              | |- occurs ?m (String ?c ?a +:+ ?b) =>
                  apply (occurs_later c m (a +:+ b))
              | |- occurs ?m (EmptyString +:+ ?b) => change (occurs m b)
              | |- occurs _ (String _ _) => apply occurs_later
              | |- occurs _ (_ +:+ _) => apply occurs_after
              end ] ].

(** ** The home route *)

Lemma no_user_page_not_user_page
  (url first last access_token refresh_token fields upload logout refresh
   scouting_observations as_planted as_harvested as_applied : string) :
  no_user_page url <>
  user_page first last access_token refresh_token fields upload logout
    refresh scouting_observations as_planted as_harvested as_applied.
Proof. unfold no_user_page, user_page. simpl. discriminate. Qed.

Lemma is_no_user_view_not_user_view (page : string) :
  is_no_user_view page -> is_user_view page -> False.
Proof.
  intros [url ->] (a & b & c & d & e & f & g & h & i & j & k & l & Heq).
  exact (no_user_page_not_user_page _ _ _ _ _ _ _ _ _ _ _ _ _ Heq).
Qed.

(** The words by which a reader tells the two views apart. *)
Lemma no_user_view_words (page : string) :
  is_no_user_view page ->
  occurs "<h2>Welcome to the Climate Partner Demo App.</h2>" page.
Proof. intros [url ->]. unfold no_user_page. find_text. Qed.

Lemma user_view_words (page : string) :
  is_user_view page -> occurs "<p>User name retrieved from FieldView: " page.
Proof.
  intros (a & b & c & d & e & f & g & h & i & j & k & l & ->).
  unfold user_page. find_text.
Qed.

Ltac step_result :=
  match goal with
  | |- context [match ?r with Ok _ => _ | Raise _ => _ end] =>
      destruct r; simpl; try discriminate
  end.

Section Home.
Context {env : Environ} {fw : Framework} {cl : Climate}.

Lemma no_user_homepage_result (w : world) :
  fst (no_user_homepage w)
  = (let* uri := redirect_uri in
     let* url := login_uri CLIMATE_API_ID CLIMATE_API_SCOPES uri in
     Ok (Html (no_user_page url))).
Proof.
  unfold no_user_homepage, bind, lift, climate_call, ret. simpl.
  destruct redirect_uri; simpl; [| reflexivity].
  destruct (login_uri _ _ _); reflexivity.
Qed.

Lemma no_user_homepage_page (w : world) (page : string) :
  fst (no_user_homepage w) = Ok (Html page) -> is_no_user_view page.
Proof.
  rewrite no_user_homepage_result. unfold rbind.
  repeat step_result. intros [= <-]. eexists. reflexivity.
Qed.

Lemma user_homepage_page (w : world) (page : string) :
  fst (user_homepage w) = Ok (Html page) -> is_user_view page.
Proof.
  unfold user_homepage, bind, lift, stateM, ret. simpl.
  repeat step_result. intros [= <-].
  unfold is_user_view. repeat eexists.
Qed.

Lemma home_dispatch (w : world) :
  home w = if truthy (state (_state w) "user")
           then user_homepage w else no_user_homepage w.
Proof.
  unfold home, bind, stateM.
  destruct (truthy (state (_state w) "user")); reflexivity.
Qed.

(** C6, as the code has it: the home route tests the truth value of
    [state('user')].  It answers as [no_user_homepage] exactly when that
    value is falsy ([None], which also stands for a missing key, or an
    empty or zero value) and as [user_homepage] exactly when it is truthy;
    the two pages are never the same text, so any page the route returns
    tells which of the two cases held, and it carries the words of its
    view: the welcome heading of the login page, or the line with the
    user's name. *)
Theorem home_branches_on_truthiness (w : world) :
  (truthy (state (_state w) "user") = false ->
   home w = no_user_homepage w) /\
  (truthy (state (_state w) "user") = true ->
   home w = user_homepage w) /\
  (forall page, fst (home w) = Ok (Html page) ->
     (is_no_user_view page <-> truthy (state (_state w) "user") = false) /\
     (is_user_view page <-> truthy (state (_state w) "user") = true)) /\
  (forall page, fst (home w) = Ok (Html page) ->
     if truthy (state (_state w) "user")
     then occurs "<p>User name retrieved from FieldView: " page
     else occurs "<h2>Welcome to the Climate Partner Demo App.</h2>" page).
Proof.
  rewrite home_dispatch.
  destruct (truthy (state (_state w) "user")) eqn:Htruthy.
  - split; [discriminate | split; [reflexivity |]]. split.
    + intros page Hpage. pose proof (user_homepage_page _ _ Hpage) as Huser.
      split; split; try discriminate; auto.
      intros Hno. destruct (is_no_user_view_not_user_view _ Hno Huser).
    + intros page Hpage. apply user_view_words.
      exact (user_homepage_page _ _ Hpage).
  - split; [reflexivity | split; [discriminate |]]. split.
    + intros page Hpage. pose proof (no_user_homepage_page _ _ Hpage) as Hno.
      split; split; try discriminate; auto.
      intros Huser. destruct (is_no_user_view_not_user_view _ Hno Huser).
    + intros page Hpage. apply no_user_view_words.
      exact (no_user_homepage_page _ _ Hpage).
Qed.

(** C10: when the [user] key holds a value that is present but falsy, the
    home route answers exactly as [no_user_homepage] does: the page with
    the login link if the link can be built.  That answer does not depend
    on the session, so it is the one given when the user is absent.  The
    page served has the welcome heading of the login page and is not the
    user page; a session whose user is truthy is served by
    [user_homepage] instead. *)
Theorem home_falsy_user_no_user_view (w : world) (user : pyval) :
  _state w !! "user" = Some user ->
  truthy user = false ->
  home w = no_user_homepage w /\
  fst (home w)
  = (let* uri := redirect_uri in
     let* url := login_uri CLIMATE_API_ID CLIMATE_API_SCOPES uri in
     Ok (Html (no_user_page url))) /\
  (forall w0, _state w0 !! "user" = None -> fst (home w0) = fst (home w)) /\
  (forall page, fst (home w) = Ok (Html page) ->
     occurs "<h2>Welcome to the Climate Partner Demo App.</h2>" page /\
     ~ is_user_view page) /\
  (forall w1, truthy (state (_state w1) "user") = true ->
     home w1 = user_homepage w1).
Proof.
  intros Huser Hfalsy.
  assert (Hhome : home w = no_user_homepage w).
  { rewrite home_dispatch. unfold state. rewrite Huser. simpl.
    rewrite Hfalsy. reflexivity. }
  split; [exact Hhome |]. split; [| split; [| split]].
  - rewrite Hhome. apply no_user_homepage_result.
  - intros w0 Hnone. rewrite Hhome, home_dispatch. unfold state.
    rewrite Hnone. simpl. rewrite !no_user_homepage_result. reflexivity.
  - intros page Hpage. rewrite Hhome in Hpage.
    pose proof (no_user_homepage_page _ _ Hpage) as Hno.
    split; [exact (no_user_view_words _ Hno) |].
    intros Hview. exact (is_no_user_view_not_user_view _ Hno Hview).
  - intros w1 Htruthy. rewrite home_dispatch, Htruthy. reflexivity.
Qed.

End Home.

Lemma home_branches_on_truthiness_witness :
  let w := Demo.logged_in in
  let served := home (env := Demo.environ) (fw := Demo.framework)
                  (cl := Demo.climate (PNone, PNone)) w in
  truthy (state (_state w) "user") = true /\
  served = user_homepage (fw := Demo.framework) w /\
  exists page, fst served = Ok (Html page) /\ is_user_view page.
Proof.
  intros w served.
  destruct (home_branches_on_truthiness (env := Demo.environ)
              (fw := Demo.framework) (cl := Demo.climate (PNone, PNone)) w)
    as (_ & Huser & Hpage & _).
  split; [reflexivity |]. split; [apply Huser; reflexivity |].
  eexists. split; [reflexivity |].
  eapply Hpage; reflexivity.
Defined.

(** C6 as stated fails: with an empty user record in the store the user is
    present, [state('user')] is not [None], and the home route still
    answers with the login page, which is not the user page. *)
Lemma home_present_user_counterexample :
  let w := World {[ "user" := PDict []; "fields" := PList [] ]} [] in
  _state w !! "user" = Some (PDict []) /\
  state (_state w) "user" <> PNone /\
  exists page,
    fst (home (env := Demo.environ) (fw := Demo.framework)
           (cl := Demo.climate (PNone, PNone)) w) = Ok (Html page) /\
    is_no_user_view page /\ ~ is_user_view page.
Proof.
  intros w. split; [reflexivity |]. split; [discriminate |].
  eexists. split; [reflexivity |].
  assert (Hno : is_no_user_view
                  (no_user_page
                     ("https://climate.com/login?client_id=partner-id"
                      +:+ "&scope=fields:read"
                      +:+ "&redirect_uri=/login_redirect?_external=True"))).
  { eexists. reflexivity. }
  split; [exact Hno |].
  intros Huser. exact (is_no_user_view_not_user_view _ Hno Huser).
Qed.

Lemma home_falsy_user_no_user_view_witness :
  let w := World {[ "user" := PDict []; "access_token" := PStr "A1" ]} [] in
  _state w !! "user" = Some (PDict []) /\
  truthy (PDict []) = false /\
  fst (home (env := Demo.environ) (fw := Demo.framework)
         (cl := Demo.climate (PNone, PNone)) w)
  = Ok (Html (no_user_page
                ("https://climate.com/login?client_id=partner-id"
                 +:+ "&scope=fields:read"
                 +:+ "&redirect_uri=/login_redirect?_external=True"))).
Proof.
  intros w. split; [reflexivity |]. split; [reflexivity |].
  destruct (home_falsy_user_no_user_view (env := Demo.environ)
              (fw := Demo.framework) (cl := Demo.climate (PNone, PNone))
              w (PDict []) eq_refl eq_refl) as (_ & Hpage & _).
  rewrite Hpage. reflexivity.
Defined.

(** ** The activity listings *)


Section Activities.
Context {env : Environ} {fw : Framework} {cl : Climate}.

(** The route, once the client has answered. *)
Lemma handle_activity_result
  (activity : string) (req : request) (w : world)
  (callee : pyval -> string -> pyval -> result (pyval * pyval))
  (token activities : pyval) :
  get_callee activity = Ok callee ->
  callee (state (_state w) "access_token") CLIMATE_API_KEY
         (args_get req "next_token") = Ok (token, activities) ->
  fst (handle_activity activity req w)
  = (let* body := activity_body activity activities in
     let* more_records_html := more_records activity token in
     let* home_url := url_for "home" [] in
     Ok (Html (activity_page body more_records_html home_url))).
Proof.
  intros Hcallee Hanswer.
  unfold handle_activity, bind, lift, stateM, climate_call, ret.
  rewrite Hcallee. simpl. rewrite Hanswer. simpl.
  destruct (activity_body activity activities); simpl; [| reflexivity].
  destruct (more_records activity token); simpl; [| reflexivity].
  destruct (url_for "home" []); reflexivity.
Qed.

(** The body of the listing, as the page has it. *)
Lemma body_in_activity_page (body more_records_html home_url : string) :
  occurs body (activity_page body more_records_html home_url).
Proof. unfold activity_page. find_text. Qed.



End Activities.


Lemma decide_None (v : pyval) : v = PNone \/ v <> PNone.
Proof. destruct v; [left; reflexivity | right; discriminate ..]. Qed.

Lemma activity_body_not_None
  {fw : Framework} (activity : string) (activities : pyval) (body : string) :
  activities <> PNone ->
  activity_body activity activities = Ok body ->
  exists activities_list,
    body = "<p>Your Climate " +:+ activity +:+ " activities:"
           +:+ activities_list +:+ "</p>".
Proof.
  intros Hsome. unfold activity_body.
  destruct activities; try contradiction; simpl;
    unfold rbind; repeat step_result; intros [= <-]; eexists; reflexivity.
Qed.

Section ActivityBody.
Context {env : Environ} {fw : Framework} {cl : Climate}.

(** C9: the listing tells an absent list from an empty one.  For the
    empty list the page has the "Your Climate ... activities" body around
    an empty [<ul>]; for [None] it has "No data found!"; and whenever the
    activities render, the body is "No data found!" only if the client
    returned [None] for them.  The body stands in the page served. *)
Theorem activity_empty_list_is_not_absent
  (activity : string) (req : request) (w : world)
  (callee : pyval -> string -> pyval -> result (pyval * pyval))
  (token activities : pyval) (more_records_html home_url : string) :
  get_callee activity = Ok callee ->
  callee (state (_state w) "access_token") CLIMATE_API_KEY
         (args_get req "next_token") = Ok (token, activities) ->
  more_records activity token = Ok more_records_html ->
  url_for "home" [] = Ok home_url ->
  (activities = PList [] ->
   fst (handle_activity activity req w)
   = Ok (Html (activity_page
                 ("<p>Your Climate " +:+ activity
                  +:+ " activities:<ul></ul></p>")
                 more_records_html home_url))) /\
  (activities = PNone ->
   fst (handle_activity activity req w)
   = Ok (Html (activity_page "<p>No data found!</p>"
                 more_records_html home_url))) /\
  (forall body,
     activity_body activity activities = Ok body ->
     fst (handle_activity activity req w)
     = Ok (Html (activity_page body more_records_html home_url)) /\
     (body = "<p>No data found!</p>" <-> activities = PNone)) /\
  (forall page,
     fst (handle_activity activity req w) = Ok (Html page) ->
     (activities = PList [] ->
      occurs ("<p>Your Climate " +:+ activity +:+ " activities:<ul></ul></p>")
        page) /\
     (activities = PNone -> occurs "<p>No data found!</p>" page) /\
     (forall body, activity_body activity activities = Ok body ->
                   occurs body page)).
Proof.
  intros Hcallee Hanswer Hmore Hhome.
  rewrite (handle_activity_result _ _ _ _ _ _ Hcallee Hanswer).
  split; [| split; [| split]].
  - intros ->. simpl. rewrite Hmore. simpl. rewrite Hhome. reflexivity.
  - intros ->. simpl. rewrite Hmore. simpl. rewrite Hhome. reflexivity.
  - intros body Hbody. rewrite Hbody. simpl. rewrite Hmore. simpl.
    rewrite Hhome. split; [reflexivity |].
    split.
    + intros ->. destruct (decide_None activities) as [Hnone | Hsome];
        [exact Hnone |].
      destruct (activity_body_not_None _ _ _ Hsome Hbody) as [l Hl].
      simpl in Hl. discriminate.
    + intros ->. unfold activity_body in Hbody. simpl in Hbody.
      injection Hbody as <-. reflexivity.
  - intros page Hpage.
    assert (Hin : forall body, activity_body activity activities = Ok body ->
                               occurs body page).
    { intros body Hbody. rewrite Hbody in Hpage. cbn [rbind] in Hpage.
      rewrite Hmore in Hpage. cbn [rbind] in Hpage.
      rewrite Hhome in Hpage. cbn [rbind] in Hpage.
      injection Hpage as <-. apply body_in_activity_page. }
    split; [| split; [| exact Hin]].
    + intros ->. apply Hin. reflexivity.
    + intros ->. apply Hin. reflexivity.
Qed.

End ActivityBody.

Lemma activity_empty_list_is_not_absent_witness :
  let served activities :=
    fst (handle_activity (env := Demo.environ) (fw := Demo.framework)
           (cl := Demo.climate (PNone, activities))
           "as_applied" (Request []) Demo.logged_in) in
  served (PList [])
  = Ok (Html (activity_page
                "<p>Your Climate as_applied activities:<ul></ul></p>"
                EmptyString "/home")) /\
  served PNone
  = Ok (Html (activity_page "<p>No data found!</p>" EmptyString "/home")).
Proof.
  intros served. split.
  - destruct (activity_empty_list_is_not_absent (env := Demo.environ)
                (fw := Demo.framework) (cl := Demo.climate (PNone, PList []))
                "as_applied" (Request []) Demo.logged_in
                (fun _ _ _ => Ok (PNone, PList [])) PNone (PList [])
                EmptyString "/home" eq_refl eq_refl eq_refl eq_refl)
      as (Hempty & _ & _).
    exact (Hempty eq_refl).
  - destruct (activity_empty_list_is_not_absent (env := Demo.environ)
                (fw := Demo.framework) (cl := Demo.climate (PNone, PNone))
                "as_applied" (Request []) Demo.logged_in
                (fun _ _ _ => Ok (PNone, PNone)) PNone PNone
                EmptyString "/home" eq_refl eq_refl eq_refl eq_refl)
      as (_ & Habsent & _).
    exact (Habsent eq_refl).
Defined.

(** The hypotheses of the two listing theorems can be met: a list of
    activities that all carry [id] and [length] renders whenever the URL
    of the listing can be built. *)
Lemma activity_body_renders
  {fw : Framework} (activity link : string) (activities : list pyval) :
  url_for activity [] = Ok link ->
  Forall (fun a => exists i n, py_getitem a "id" = Ok i /\
                               py_getitem a "length" = Ok n) activities ->
  exists items,
    length items = length activities /\
    activity_body activity (PList activities)
    = Ok ("<p>Your Climate " +:+ activity +:+ " activities:"
          +:+ render_ul items +:+ "</p>").
Proof.
  intros Hlink Hwf. unfold activity_body. simpl.
  assert (Hmap : exists items,
            length items = length activities /\
            mapR (fun a => let* link := url_for activity [] in
                           render_activitiy_link a link) activities
            = Ok items).
  { induction Hwf as [| a rest (i & n & Hi & Hn) _ (items & Hlen & IH)].
    - exists []. split; reflexivity.
    - cbn [mapR]. rewrite IH, Hlink. unfold render_activitiy_link.
      cbn [rbind]. rewrite Hi, Hn. cbn [rbind]. eexists (_ :: items).
      split; [simpl; rewrite Hlen |]; reflexivity. }
  destruct Hmap as (items & Hlen & ->). exists items. split; [exact Hlen |].
  reflexivity.
Qed.

(** * Further properties of the code *)

(** ** How the store operations compose *)

Lemma cleared_lookup (k : string) :
  k ∈ session_keys ->
  ({[ "access_token" := PNone; "refresh_token" := PNone;
      "user" := PNone; "fields" := PNone ]} : gmap string pyval) !! k
  = Some PNone.
Proof.
  intros Hk. apply elem_of_session_keys in Hk.
  destruct Hk as [-> | [-> | [-> | ->]]]; reflexivity.
Qed.

(** X1: two [set_state] calls in a row are one call with the keywords of
    both, the later call winning where both name a key. *)
Theorem set_state_compose (later earlier st : gmap string pyval) :
  set_state later (set_state earlier st) = set_state (later ∪ earlier) st.
Proof.
  apply map_eq. intros k. rewrite !set_state_lookup, lookup_union.
  destruct (decide (k ∈ session_keys)); [| reflexivity].
  destruct (later !! k), (earlier !! k); reflexivity.
Qed.

(** X2: [set_state] adds to the dictionary exactly the known keys it was
    given and removes none; so [clear_state] removes nothing either: it
    leaves all four keys in the dictionary, bound to [None]. *)
Theorem set_state_dom_exact (kwargs st : gmap string pyval) :
  dom (set_state kwargs st) = dom st ∪ (dom kwargs ∩ session_keys) /\
  dom (clear_state st) = dom st ∪ session_keys /\
  (forall k, k ∈ session_keys -> clear_state st !! k = Some PNone).
Proof.
  assert (Hdom : forall kw : gmap string pyval,
            dom (set_state kw st) = dom st ∪ (dom kw ∩ session_keys)).
  { intros kw. apply set_eq. intros k.
    rewrite elem_of_union, elem_of_intersection, !elem_of_dom,
      set_state_lookup.
    destruct (decide (k ∈ session_keys)) as [Hin | Hout].
    - destruct (kw !! k) eqn:Hk.
      + split; [intros _; right; split; [eauto | exact Hin] | eauto].
      + split; [intros Hst; left; exact Hst |].
        intros [Hst | [[x Hx] _]]; [exact Hst | discriminate].
    - split; [intros Hst; left; exact Hst |].
      intros [Hst | [_ Hin]]; [exact Hst | contradiction]. }
  split; [apply Hdom |]. split.
  - unfold clear_state. rewrite Hdom. apply set_eq. intros k.
    rewrite !elem_of_union, elem_of_intersection.
    split.
    + intros [Hst | [_ Hin]]; [left | right]; assumption.
    + intros [Hst | Hin]; [left; exact Hst | right].
      split; [| exact Hin].
      apply elem_of_dom. rewrite (cleared_lookup k Hin). eauto.
  - intros k Hk. unfold clear_state. rewrite set_state_lookup.
    rewrite decide_True by exact Hk. rewrite (cleared_lookup k Hk).
    reflexivity.
Qed.

Lemma set_state_dom_exact_witness :
  "user" ∈ session_keys /\
  clear_state {[ "user" := Demo.ada ]} !! "user" = Some PNone.
Proof.
  assert (Hk : "user" ∈ session_keys) by (unfold session_keys; set_solver).
  split; [exact Hk |].
  destruct (set_state_dom_exact ∅ {[ "user" := Demo.ada ]}) as (_ & _ & Hc).
  apply Hc, Hk.
Defined.

(** X3: clearing wipes whatever an earlier [set_state] stored, and
    clearing twice is clearing once. *)
Theorem clear_state_absorbs (kwargs st : gmap string pyval) :
  clear_state (set_state kwargs st) = clear_state st /\
  clear_state (clear_state st) = clear_state st.
Proof.
  assert (Habs : forall kw : gmap string pyval,
            clear_state (set_state kw st) = clear_state st).
  { intros kw. unfold clear_state. apply map_eq. intros k.
    rewrite !set_state_lookup.
    destruct (decide (k ∈ session_keys)) as [Hin |]; [| reflexivity].
    rewrite (cleared_lookup k Hin). reflexivity. }
  split; [apply Habs |].
  unfold clear_state at 2. apply Habs.
Qed.

(** ** Routes that only read the store *)

Lemma reads_ret {A} (a : A) : reads_only (ret a).
Proof. intros w. reflexivity. Qed.

Lemma reads_lift {A} (r : result A) : reads_only (lift r).
Proof. intros w. reflexivity. Qed.

Lemma reads_stateM (key : string) : reads_only (stateM key).
Proof. intros w. reflexivity. Qed.

Lemma reads_climate_call {A} (name : string) (r : result A) :
  reads_only (climate_call name r).
Proof. intros w. reflexivity. Qed.

Lemma reads_bind {A B} (m : M A) (k : A -> M B) :
  reads_only m -> (forall a, reads_only (k a)) -> reads_only (bind m k).
Proof.
  intros Hm Hk w. unfold bind.
  specialize (Hm w). destruct (m w) as [[a | e] w']; simpl in *.
  - rewrite Hk. exact Hm.
  - exact Hm.
Qed.

Create HintDb reads.
#[export] Hint Resolve reads_ret reads_lift reads_stateM reads_climate_call
  : reads.

Ltac reads :=
  repeat first
    [ apply reads_bind; [| intros ? ]
    | match goal with
      | |- reads_only (if ?b then _ else _) => destruct b
      | |- reads_only (match ?o with Some _ => _ | None => _ end) =>
          destruct o
      end
    | solve [ auto with reads ] ].

Section ReadOnly.
Context {env : Environ} {fw : Framework} {bi : Builtins}
        {cl : Climate} {cd : ClimateData}.

(** X4: every route other than login, refresh and logout leaves the
    session store exactly as it found it, also when it raises. *)
Theorem routes_read_only
  (req : request) (freq : form_request) (a b : string) :
  reads_only home /\
  reads_only (field a) /\
  reads_only (scouting_observation_attachments_contents req a b) /\
  reads_only (handle_activity a req) /\
  reads_only (upload_form freq) /\
  reads_only (update_status a) /\
  reads_only (scouting_observation a) /\
  reads_only scouting_observations /\
  reads_only (scouting_observation_attachments a) /\
  reads_only (get_activity_contents req a b).
Proof.
  repeat split.
  - unfold home. reads.
  - unfold field, show_field. reads.
  - unfold scouting_observation_attachments_contents. reads.
  - unfold handle_activity. reads.
  - unfold upload_form. reads.
  - unfold update_status. reads.
  - unfold scouting_observation. reads.
  - unfold scouting_observations. reads.
  - unfold scouting_observation_attachments. reads.
  - unfold get_activity_contents. reads.
Qed.

End ReadOnly.

(** ** Login *)

Section Login.
Context {env : Environ} {fw : Framework} {cl : Climate}.

(** X5: a login whose code is exchanged for an answer carrying the two
    tokens and the user stores all three, then asks the client for the
    fields with the new access token and stores them too: two client calls,
    authorize first, and the redirect to the home route. *)
Theorem login_redirect_success
  (req : request) (w : world) (code uri : string)
  (resp access refresh user fields : pyval) :
  args_getitem req "code" = Ok code ->
  code <> EmptyString ->
  redirect_uri = Ok uri ->
  authorize code CLIMATE_API_ID CLIMATE_API_SECRET uri = Ok resp ->
  py_getitem resp "access_token" = Ok access ->
  py_getitem resp "refresh_token" = Ok refresh ->
  py_getitem resp "user" = Ok user ->
  get_fields access CLIMATE_API_KEY = Ok fields ->
  state (_state (snd (login_redirect req w))) "access_token" = access /\
  state (_state (snd (login_redirect req w))) "refresh_token" = refresh /\
  state (_state (snd (login_redirect req w))) "user" = user /\
  state (_state (snd (login_redirect req w))) "fields" = fields /\
  calls (snd (login_redirect req w))
  = (calls w ++ ["authorize"; "get_fields"])%list /\
  fst (login_redirect req w)
  = (let* home_url := url_for "home" [] in Ok (Redirect home_url)).
Proof.
  intros Hcode Hne Huri Hauth Hacc Href Huser Hfields.
  pose proof (getitem_truthy _ _ _ Hacc) as Htrue.
  unfold login_redirect, bind, lift, climate_call, set_stateM, ret, redirect.
  rewrite Hcode. simpl.
  destruct code as [| c code]; [contradiction |]. simpl.
  rewrite Huri. simpl. rewrite Hauth, Htrue, Hacc, Href, Huser. simpl.
  rewrite Hfields. simpl. rewrite <- app_assoc. simpl.
  destruct (url_for "home" []); simpl;
    rewrite !state_set_state; repeat split; reflexivity.
Qed.

(** X6: a login without a [code] parameter is refused with the bad-request
    error; with an empty code nothing is called and nothing stored; with an
    answer from authorize that is falsy nothing is stored.  In the last two
    cases the user is sent to the home route as if nothing had happened. *)
Theorem login_redirect_without_effect (req : request) (w : world) :
  (assoc "code" (args req) = None ->
   login_redirect req w = (Raise (BadRequestKeyError "code"), w)) /\
  (assoc "code" (args req) = Some EmptyString ->
   login_redirect req w
   = ((let* home_url := url_for "home" [] in Ok (Redirect home_url)), w)) /\
  (forall code uri resp,
     assoc "code" (args req) = Some code ->
     redirect_uri = Ok uri ->
     authorize code CLIMATE_API_ID CLIMATE_API_SECRET uri = Ok resp ->
     truthy resp = false ->
     _state (snd (login_redirect req w)) = _state w /\
     fst (login_redirect req w)
     = (let* home_url := url_for "home" [] in Ok (Redirect home_url))).
Proof.
  unfold login_redirect, args_getitem, bind, lift, climate_call, ret,
    redirect.
  split; [| split].
  - intros ->. reflexivity.
  - intros ->. simpl. destruct (url_for "home" []); reflexivity.
  - intros code uri resp -> Huri Hauth Hfalsy. simpl.
    destruct code as [| c code]; simpl.
    + destruct (url_for "home" []); split; reflexivity.
    + rewrite Huri. simpl. rewrite Hauth, Hfalsy. simpl.
      destruct (url_for "home" []); split; reflexivity.
Qed.

(** X7: the login is not atomic.  When the fields request fails after a
    good authorize answer, the error goes up to the caller while the store
    already holds the new tokens and user beside the old field list. *)
Theorem login_redirect_fields_failure
  (req : request) (w : world) (code uri : string)
  (resp access refresh user : pyval) (e : exn) :
  args_getitem req "code" = Ok code ->
  code <> EmptyString ->
  redirect_uri = Ok uri ->
  authorize code CLIMATE_API_ID CLIMATE_API_SECRET uri = Ok resp ->
  py_getitem resp "access_token" = Ok access ->
  py_getitem resp "refresh_token" = Ok refresh ->
  py_getitem resp "user" = Ok user ->
  get_fields access CLIMATE_API_KEY = Raise e ->
  fst (login_redirect req w) = Raise e /\
  state (_state (snd (login_redirect req w))) "access_token" = access /\
  state (_state (snd (login_redirect req w))) "refresh_token" = refresh /\
  state (_state (snd (login_redirect req w))) "user" = user /\
  state (_state (snd (login_redirect req w))) "fields"
  = state (_state w) "fields".
Proof.
  intros Hcode Hne Huri Hauth Hacc Href Huser Hfields.
  pose proof (getitem_truthy _ _ _ Hacc) as Htrue.
  unfold login_redirect, bind, lift, climate_call, set_stateM, ret, redirect.
  rewrite Hcode. simpl.
  destruct code as [| c code]; [contradiction |]. simpl.
  rewrite Huri. simpl. rewrite Hauth, Htrue, Hacc, Href, Huser. simpl.
  rewrite Hfields. simpl.
  rewrite !state_set_state; repeat split; reflexivity.
Qed.

(** X8: a refresh writes the store only for an answer that carries all
    three of [access_token], [refresh_token] and [user]; an answer that is
    falsy is passed over in silence, with the redirect to the home route;
    an error of the client goes up with the store untouched. *)
Theorem refresh_token_writes_only_full_answer (w : world) :
  (_state (snd (refresh_token w)) <> _state w ->
   exists resp access refresh user,
     reauthorize (state (_state w) "refresh_token")
                 CLIMATE_API_ID CLIMATE_API_SECRET = Ok resp /\
     py_getitem resp "access_token" = Ok access /\
     py_getitem resp "refresh_token" = Ok refresh /\
     py_getitem resp "user" = Ok user) /\
  (forall resp,
     reauthorize (state (_state w) "refresh_token")
                 CLIMATE_API_ID CLIMATE_API_SECRET = Ok resp ->
     truthy resp = false ->
     _state (snd (refresh_token w)) = _state w /\
     fst (refresh_token w)
     = (let* home_url := url_for "home" [] in Ok (Redirect home_url))) /\
  (forall e,
     reauthorize (state (_state w) "refresh_token")
                 CLIMATE_API_ID CLIMATE_API_SECRET = Raise e ->
     _state (snd (refresh_token w)) = _state w /\
     fst (refresh_token w) = Raise e).
Proof.
  unfold refresh_token, bind, stateM, climate_call, lift, set_stateM, ret,
    redirect; simpl.
  destruct (reauthorize _ _ _) as [resp | e0]; simpl.
  - split; [| split].
    + destruct (truthy resp); simpl.
      * destruct (py_getitem resp "access_token") as [a |] eqn:Ha; simpl;
          [| intros Hw; contradiction].
        destruct (py_getitem resp "refresh_token") as [r |] eqn:Hr; simpl;
          [| intros Hw; contradiction].
        destruct (py_getitem resp "user") as [u |] eqn:Hu; simpl;
          [| intros Hw; contradiction].
        intros _. exists resp, a, r, u. repeat split; assumption.
      * destruct (url_for "home" []); simpl; intros Hw; contradiction.
    + intros resp0 [= <-] ->. simpl.
      destruct (url_for "home" []); split; reflexivity.
    + intros e [=].
  - split; [intros Hw; contradiction | split].
    + intros resp [=].
    + intros e [= <-]. split; reflexivity.
Qed.

End Login.

Lemma login_redirect_success_witness :
  let served := login_redirect (env := Demo.environ) (fw := Demo.framework)
                  (cl := Demo.climate (PNone, PNone))
                  (Request [("code", "c0de")]) initial in
  state (_state (snd served)) "access_token" = PStr "A1" /\
  state (_state (snd served)) "refresh_token" = PStr "R1" /\
  state (_state (snd served)) "user" = Demo.ada /\
  state (_state (snd served)) "fields"
  = PList [Demo.north_field; Demo.south_field] /\
  calls (snd served) = ["authorize"; "get_fields"] /\
  fst served = Ok (Redirect "/home").
Proof.
  intros served.
  apply (login_redirect_success (env := Demo.environ) (fw := Demo.framework)
           (cl := Demo.climate (PNone, PNone))
           (Request [("code", "c0de")]) initial "c0de"
           "/login_redirect?_external=True" (Demo.tokens "A1" "R1"));
    try reflexivity.
  discriminate.
Defined.

Lemma login_redirect_without_effect_witness :
  let cl := DemoFaults.climate (Ok PNone) (Raise (ClientError "503"))
              (Ok PNone) in
  login_redirect (env := Demo.environ) (fw := Demo.framework) (cl := cl)
    (Request []) Demo.logged_in
  = (Raise (BadRequestKeyError "code"), Demo.logged_in) /\
  login_redirect (env := Demo.environ) (fw := Demo.framework) (cl := cl)
    (Request [("code", EmptyString)]) Demo.logged_in
  = (Ok (Redirect "/home"), Demo.logged_in) /\
  _state (snd (login_redirect (env := Demo.environ) (fw := Demo.framework)
                 (cl := cl) (Request [("code", "c0de")]) Demo.logged_in))
  = _state Demo.logged_in.
Proof.
  intros cl. split; [| split].
  - apply (login_redirect_without_effect (env := Demo.environ)
             (fw := Demo.framework) (cl := cl)). reflexivity.
  - destruct (login_redirect_without_effect (env := Demo.environ)
                (fw := Demo.framework) (cl := cl)
                (Request [("code", EmptyString)]) Demo.logged_in)
      as (_ & Hempty & _).
    rewrite Hempty; reflexivity.
  - destruct (login_redirect_without_effect (env := Demo.environ)
                (fw := Demo.framework) (cl := cl)
                (Request [("code", "c0de")]) Demo.logged_in)
      as (_ & _ & Hfalsy).
    exact (proj1 (Hfalsy "c0de" "/login_redirect?_external=True" PNone
                    eq_refl eq_refl eq_refl eq_refl)).
Defined.

Lemma login_redirect_fields_failure_witness :
  let cl := DemoFaults.climate (Ok (Demo.tokens "A9" "R9"))
              (Raise (ClientError "503")) (Ok PNone) in
  let served := login_redirect (env := Demo.environ) (fw := Demo.framework)
                  (cl := cl) (Request [("code", "c0de")]) Demo.logged_in in
  fst served = Raise (ClientError "503") /\
  state (_state (snd served)) "access_token" = PStr "A9" /\
  state (_state (snd served)) "refresh_token" = PStr "R9" /\
  state (_state (snd served)) "user" = Demo.ada /\
  state (_state (snd served)) "fields"
  = state (_state Demo.logged_in) "fields".
Proof.
  intros cl served.
  apply (login_redirect_fields_failure (env := Demo.environ)
           (fw := Demo.framework) (cl := cl)
           (Request [("code", "c0de")]) Demo.logged_in "c0de"
           "/login_redirect?_external=True" (Demo.tokens "A9" "R9"));
    try reflexivity.
  discriminate.
Defined.

Lemma refresh_token_writes_only_full_answer_witness :
  let cl := DemoFaults.climate (Ok PNone) (Ok PNone) (Ok PNone) in
  _state (snd (refresh_token (env := Demo.environ) (fw := Demo.framework)
                 (cl := cl) Demo.logged_in))
  = _state Demo.logged_in /\
  fst (refresh_token (env := Demo.environ) (fw := Demo.framework)
         (cl := cl) Demo.logged_in)
  = Ok (Redirect "/home").
Proof.
  intros cl.
  destruct (refresh_token_writes_only_full_answer (env := Demo.environ)
              (fw := Demo.framework) (cl := cl) Demo.logged_in)
    as (_ & Hfalsy & _).
  apply (Hfalsy PNone); reflexivity.
Defined.

(** ** The home page after logout, refresh and login *)


Section HomeFlows.
Context {env : Environ} {fw : Framework} {cl : Climate}.

(** X9: whatever the session held, the home route right after a logout
    answers with the login page (if the login link can be built). *)
Theorem home_after_logout (w : world) :
  fst (home (snd (logout_redirect w)))
  = (let* uri := redirect_uri in
     let* url := login_uri CLIMATE_API_ID CLIMATE_API_SCOPES uri in
     Ok (Html (no_user_page url))).
Proof.
  rewrite home_dispatch.
  assert (Hstore : _state (snd (logout_redirect w)) = clear_state (_state w)).
  { unfold logout_redirect, bind, clear_stateM, lift, ret. simpl.
    destruct (url_for "home" []); reflexivity. }
  rewrite Hstore. unfold clear_state. rewrite state_set_state. simpl.
  apply no_user_homepage_result.
Qed.

(** X10: the user page needs the cached field list.  When a refresh
    succeeds on a session that has no field list (it was never fetched, or
    was cleared by a logout), the store then has a user but [None] for
    fields, and the home route raises [TypeError] instead of a page. *)
Theorem home_after_refresh_without_fields
  (w : world) (resp access refresh user : pyval) :
  state (_state w) "fields" = PNone ->
  reauthorize (state (_state w) "refresh_token")
              CLIMATE_API_ID CLIMATE_API_SECRET = Ok resp ->
  py_getitem resp "access_token" = Ok access ->
  py_getitem resp "refresh_token" = Ok refresh ->
  py_getitem resp "user" = Ok user ->
  truthy user = true ->
  fst (refresh_token w)
  = (let* home_url := url_for "home" [] in Ok (Redirect home_url)) /\
  home (snd (refresh_token w)) = (Raise TypeError, snd (refresh_token w)).
Proof.
  intros Hfields Hresp Hacc Href Huser Htruthy.
  pose proof (getitem_truthy _ _ _ Hacc) as Htrue.
  assert (Hrun : refresh_token w
                 = ((let* home_url := url_for "home" [] in
                     Ok (Redirect home_url)),
                    World (set_state {[ "user" := user;
                                        "access_token" := access;
                                        "refresh_token" := refresh ]}
                             (_state w))
                          (calls w ++ ["reauthorize"]))).
  { unfold refresh_token, bind, stateM, climate_call, lift, set_stateM, ret,
      redirect; simpl.
    rewrite Hresp, Htrue, Hacc, Href, Huser. simpl.
    destruct (url_for "home" []); reflexivity. }
  rewrite Hrun. split; [reflexivity |].
  set (st := set_state {[ "user" := user; "access_token" := access;
                          "refresh_token" := refresh ]} (_state w)).
  assert (Hu : state st "user" = user).
  { unfold st. rewrite state_set_state. reflexivity. }
  assert (Hf : state st "fields" = PNone).
  { unfold st. rewrite state_set_state. exact Hfields. }
  rewrite home_dispatch. cbn [snd _state]. rewrite Hu, Htruthy.
  unfold user_homepage, bind, stateM, lift. cbn [snd _state].
  rewrite Hf. reflexivity.
Qed.


End HomeFlows.

Lemma home_after_refresh_without_fields_witness :
  let start := snd (logout_redirect (fw := Demo.framework) Demo.logged_in) in
  let served := refresh_token (env := Demo.environ) (fw := Demo.framework)
                  (cl := Demo.climate (PNone, PNone)) start in
  state (_state start) "fields" = PNone /\
  fst served = Ok (Redirect "/home") /\
  fst (home (env := Demo.environ) (fw := Demo.framework)
         (cl := Demo.climate (PNone, PNone)) (snd served))
  = Raise TypeError.
Proof.
  intros start served.
  split; [reflexivity |].
  destruct (home_after_refresh_without_fields (env := Demo.environ)
              (fw := Demo.framework) (cl := Demo.climate (PNone, PNone))
              start (Demo.tokens "A2" "R2") (PStr "A2") (PStr "R2") Demo.ada
              eq_refl eq_refl eq_refl eq_refl eq_refl eq_refl)
    as [Hredirect Hhome].
  split; [exact Hredirect |].
  unfold served. rewrite Hhome. reflexivity.
Defined.


(** ** The download routes *)

Section Downloads.
Context {env : Environ} {fw : Framework} {bi : Builtins}
        {cl : Climate} {cd : ClimateData}.

(** X12: both download routes read [length] before anything else.  A
    request without the parameter raises [TypeError], one whose value is
    not an integer raises what [int] raises; in both cases no client
    function is called and the store is as before. *)
Theorem download_without_length
  (req : request) (a b : string) (w : world) :
  (assoc "length" (args req) = None ->
   scouting_observation_attachments_contents req a b w = (Raise TypeError, w)
   /\ get_activity_contents req a b w = (Raise TypeError, w)) /\
  (forall e, py_int (args_get req "length") = Raise e ->
   scouting_observation_attachments_contents req a b w = (Raise e, w)
   /\ get_activity_contents req a b w = (Raise e, w)).
Proof.
  unfold scouting_observation_attachments_contents, get_activity_contents,
    bind, lift.
  split.
  - intros Hnone. unfold args_get. rewrite Hnone. split; reflexivity.
  - intros e ->. split; reflexivity.
Qed.

(** X13: the activity download always goes out as a zip attachment named
    [data.zip]: for a [length] that reads as an integer the route asks the
    client once, for that layer, activity and length, and returns its bytes
    with the content type [application/zip] and that disposition. *)
Theorem activity_contents_zip
  (req : request) (layer_id activity_id : string) (w : world) (length : Z)
  (content : list Byte.byte) :
  py_int (args_get req "length") = Ok length ->
  climate_get_activity_contents (state (_state w) "access_token")
    CLIMATE_API_KEY layer_id activity_id length = Ok content ->
  get_activity_contents req layer_id activity_id w
  = (Ok (Stream content
           [("Content-Type", "application/zip");
            ("Content-Disposition", "attachment; filename=data.zip")]),
     World (_state w) (calls w ++ ["get_activity_contents"])).
Proof.
  intros Hlen Hget.
  unfold get_activity_contents, bind, lift, stateM, climate_call, ret.
  rewrite Hlen. simpl. rewrite Hget. reflexivity.
Qed.

End Downloads.

Lemma download_without_length_witness :
  let cl := Demo.climate (PNone, PNone) in
  let cd := DemoData.climate PNone in
  scouting_observation_attachments_contents (env := Demo.environ)
    (bi := Demo.builtins) (cl := cl)
    (Request [("contentType", "image/jpeg")]) "obs-1" "att-1" Demo.logged_in
  = (Raise TypeError, Demo.logged_in) /\
  get_activity_contents (env := Demo.environ) (bi := Demo.builtins) (cd := cd)
    (Request [("length", "ten")]) "asPlanted" "act-1" Demo.logged_in
  = (Raise ValueError, Demo.logged_in).
Proof.
  intros cl cd. split.
  - destruct (download_without_length (env := Demo.environ)
                (bi := Demo.builtins) (cl := cl)
                (cd := cd) (Request [("contentType", "image/jpeg")])
                "obs-1" "att-1" Demo.logged_in) as [Hmissing _].
    exact (proj1 (Hmissing eq_refl)).
  - destruct (download_without_length (env := Demo.environ)
                (bi := Demo.builtins) (cl := cl)
                (cd := cd) (Request [("length", "ten")])
                "asPlanted" "act-1" Demo.logged_in) as [_ Hbad].
    exact (proj2 (Hbad ValueError eq_refl)).
Defined.

Lemma activity_contents_zip_witness :
  get_activity_contents (env := Demo.environ) (bi := Demo.builtins)
    (cd := DemoData.climate PNone)
    (Request [("length", "2048")]) "asPlanted" "act-1" Demo.logged_in
  = (Ok (Stream [Byte.x50; Byte.x4b]
           [("Content-Type", "application/zip");
            ("Content-Disposition", "attachment; filename=data.zip")]),
     World (_state Demo.logged_in)
       ["authorize"; "get_fields"; "get_activity_contents"]).
Proof.
  apply (activity_contents_zip (env := Demo.environ) (bi := Demo.builtins)
           (cd := DemoData.climate PNone) (Request [("length", "2048")])
           "asPlanted" "act-1" Demo.logged_in 2048);
    reflexivity.
Defined.

(** ** Scouting observations and attachments *)


Section Scouting.
Context {env : Environ} {fw : Framework} {cd : ClimateData}.


(** X15: an attachment whose status is [DELETED] is listed without a
    download link and needs neither [contentType] nor [length]; any other
    attachment gets the link to the download route built from its
    [contentType] and [length], and one that lacks [contentType] makes the
    rendering raise [KeyError]. *)
Theorem render_attachment_link_by_status
  (soid : string) (attachment id status : pyval) :
  py_getitem attachment "id" = Ok id ->
  py_getitem attachment "status" = Ok status ->
  (status = PStr "DELETED" ->
   render_attachment_link soid attachment
   = Ok ("<h2>" +:+ py_str id +:+ "</h2>
            <p><pre>" +:+ json_dumps attachment +:+ "</pre></p>
            ")) /\
  (status <> PStr "DELETED" ->
   (py_getitem attachment "contentType" = Raise (KeyError "contentType") ->
    render_attachment_link soid attachment
    = Raise (KeyError "contentType")) /\
   (forall content_type length url,
      py_getitem attachment "contentType" = Ok content_type ->
      py_getitem attachment "length" = Ok length ->
      url_for "scouting_observation_attachments_contents"
        [("scouting_observation_id", PStr soid); ("attachment_id", id);
         ("contentType", content_type); ("length", length)] = Ok url ->
      render_attachment_link soid attachment
      = Ok ("<h2>" +:+ py_str id +:+ ": <a href=" +:+ dq +:+ url +:+ dq
            +:+ " >Get contents</a></h2>
            <p><pre>" +:+ json_dumps attachment +:+ "</pre></p>
            "))).
Proof.
  intros Hid Hstatus. unfold render_attachment_link.
  rewrite Hid, Hstatus. cbn [rbind]. split.
  - intros ->. reflexivity.
  - intros Hlive.
    assert (Hne : py_eq_str status "DELETED" = false).
    { destruct status as [| | | s | |]; try reflexivity. simpl.
      apply String.eqb_neq. congruence. }
    rewrite Hne. split.
    + intros ->. reflexivity.
    + intros content_type length url -> -> Hurl. cbn [rbind].
      rewrite Hurl. cbn [rbind]. rewrite !append_assoc. reflexivity.
Qed.

(** X16: the upload status page reads the [status] of the client's answer
    with [get], so an answer without the key is shown as [None] rather
    than refused; an answer that is not a dictionary raises
    [AttributeError]. *)
Theorem update_status_shows_status
  (w : world) (upload_id : string) (answer : pyval) (home_url : string) :
  get_upload_status (PStr upload_id) (state (_state w) "access_token")
    CLIMATE_API_KEY = Ok answer ->
  url_for "home" [] = Ok home_url ->
  (forall items,
     answer = PDict items ->
     let shown := py_str (default PNone (assoc "status" items)) in
     let page := update_status_page upload_id shown home_url in
     fst (update_status upload_id w) = Ok (Html page) /\
     occurs ("<h2>Upload ID: " +:+ upload_id +:+ "</h2>") page /\
     occurs ("<p>Status: " +:+ shown +:+ " <a href=") page) /\
  ((forall items, answer <> PDict items) ->
   fst (update_status upload_id w) = Raise (AttributeError "get")).
Proof.
  intros Hget Hhome. split.
  - intros items -> shown page. split; [| split].
    + unfold update_status, bind, stateM, climate_call, lift, ret. simpl.
      rewrite Hget. unfold page, shown. simpl.
      destruct (assoc "status" items); simpl; rewrite Hhome; reflexivity.
    + unfold page, update_status_page. find_text.
    + unfold page, update_status_page. find_text.
  - intros Hnot.
    unfold update_status, bind, stateM, climate_call, lift, ret. simpl.
    rewrite Hget. simpl. destruct answer; try reflexivity.
    destruct (Hnot items). reflexivity.
Qed.

(** X17: the upload route calls the client only for a POST that carries a
    file with a stream and a [file_content_type] field; every other request
    is answered without a client call: the form for another method, the
    redirect back to the form for a POST without a file.  The form posts
    a file and a [file_content_type] text field. *)
Theorem upload_form_calls_client_only_with_file
  (req : form_request) (w : world) :
  (calls (snd (upload_form req w)) <> calls w ->
   method req = "POST" /\
   exists f bytes content_type,
     assoc "file" (files req) = Some f /\ stream f = Some bytes /\
     assoc "file_content_type" (form req) = Some content_type /\
     calls (snd (upload_form req w)) = (calls w ++ ["upload"])%list) /\
  (method req <> "POST" ->
   upload_form req w
   = ((let* home_url := url_for "home" [] in
       Ok (Html (upload_form_page home_url))), w)) /\
  (method req = "POST" ->
   assoc "file" (files req) = None ->
   upload_form req w
   = ((let* again := url_for "upload_form" [] in Ok (Redirect again)), w)) /\
  (forall page,
     method req <> "POST" ->
     fst (upload_form req w) = Ok (Html page) ->
     occurs "<form method=post enctype=multipart/form-data>" page /\
     occurs "<input type=text name=file_content_type />" page /\
     occurs "<input type=file name=file />" page /\
     occurs "<input type=submit value=Upload />" page).
Proof.
  unfold upload_form, bind, lift, ret, redirect, form_getitem, stateM,
    climate_call.
  split; [| split; [| split]].
  - destruct (String.eqb_spec (method req) "POST") as [Hpost | Hother].
    + destruct (assoc "file" (files req)) as [f |] eqn:Hfile.
      * destruct (stream f) as [bytes |] eqn:Hstream.
        -- destruct (assoc "file_content_type" (form req)) as [ct |] eqn:Hct;
             simpl.
           ++ intros _. split; [exact Hpost |]. exists f, bytes, ct.
              repeat split; try assumption.
              repeat match goal with
                     | |- context [match ?r with Ok _ => _ | Raise _ => _ end]
                       => destruct r; simpl
                     end; reflexivity.
           ++ intros Hcalls. contradiction.
        -- destruct (url_for "upload_form" []); simpl;
             intros Hcalls; contradiction.
      * destruct (url_for "upload_form" []); simpl;
          intros Hcalls; contradiction.
    + destruct (url_for "home" []); simpl; intros Hcalls; contradiction.
  - intros Hother. apply String.eqb_neq in Hother. rewrite Hother.
    destruct (url_for "home" []); reflexivity.
  - intros -> ->. simpl. destruct (url_for "upload_form" []); reflexivity.
  - intros page Hother. apply String.eqb_neq in Hother. rewrite Hother.
    destruct (url_for "home" []) as [home_url | e]; simpl; [| discriminate].
    intros [= <-]. repeat split; unfold upload_form_page; find_text.
Qed.

End Scouting.

Section UploadSuccess.
Context {env : Environ} {fw : Framework} {cd : ClimateData}.

(** X18: a POST with a file and a content type hands both, with the
    session's access token, to the client's upload and shows the upload id
    it returned, with a link to the status route built for that id. *)
Theorem upload_form_shows_upload_id
  (req : form_request) (w : world) (f : file_storage)
  (bytes : list Byte.byte) (content_type status_url home_url : string)
  (upload_id : pyval) :
  method req = "POST" ->
  assoc "file" (files req) = Some f ->
  stream f = Some bytes ->
  assoc "file_content_type" (form req) = Some content_type ->
  upload f content_type (state (_state w) "access_token") CLIMATE_API_KEY
  = Ok upload_id ->
  url_for "update_status" [("upload_id", upload_id)] = Ok status_url ->
  url_for "home" [] = Ok home_url ->
  let page := uploaded_page (py_str upload_id) status_url home_url in
  upload_form req w
  = (Ok (Html page), World (_state w) (calls w ++ ["upload"])) /\
  occurs ("<p>File uploaded: " +:+ py_str upload_id) page /\
  occurs ("<a href='" +:+ status_url +:+ "'>Get Status</a>") page.
Proof.
  intros Hpost Hfile Hstream Hct Hupload Hstatus Hhome page.
  split; [| split].
  - unfold upload_form, bind, lift, ret, form_getitem, stateM, climate_call.
    rewrite Hpost, Hfile, Hstream, Hct. simpl.
    rewrite Hupload. simpl. rewrite Hstatus. simpl. rewrite Hhome.
    reflexivity.
  - unfold page, uploaded_page. find_text.
  - unfold page, uploaded_page. find_text.
Qed.

End UploadSuccess.


Lemma render_attachment_link_by_status_witness :
  render_attachment_link (fw := Demo.framework) "obs-1" DemoData.deleted_photo
  = Ok ("<h2>p2</h2>
            <p><pre>{...}</pre></p>
            ") /\
  render_attachment_link (fw := Demo.framework) "obs-1"
    (PDict [("id", PStr "p3"); ("status", PStr "ACTIVE")])
  = Raise (KeyError "contentType").
Proof.
  split.
  - destruct (render_attachment_link_by_status (fw := Demo.framework)
                "obs-1" DemoData.deleted_photo (PStr "p2") (PStr "DELETED")
                eq_refl eq_refl) as [Hdeleted _].
    exact (Hdeleted eq_refl).
  - destruct (render_attachment_link_by_status (fw := Demo.framework)
                "obs-1" (PDict [("id", PStr "p3"); ("status", PStr "ACTIVE")])
                (PStr "p3") (PStr "ACTIVE") eq_refl eq_refl) as [_ Hlive].
    destruct Hlive as [Hmissing _]; [discriminate |].
    exact (Hmissing eq_refl).
Defined.

Lemma update_status_shows_status_witness :
  fst (update_status (env := Demo.environ) (fw := Demo.framework)
         (cd := DemoData.climate PNone) "upload-7" Demo.logged_in)
  = Ok (Html (update_status_page "upload-7" "INBOX" "/home")).
Proof.
  destruct (update_status_shows_status (env := Demo.environ)
              (fw := Demo.framework) (cd := DemoData.climate PNone)
              Demo.logged_in "upload-7" (PDict [("status", PStr "INBOX")])
              "/home" eq_refl eq_refl) as [Hdict _].
  exact (proj1 (Hdict [("status", PStr "INBOX")] eq_refl)).
Defined.

Lemma upload_form_calls_client_only_with_file_witness :
  upload_form (env := Demo.environ) (fw := Demo.framework)
    (cd := DemoData.climate PNone) (FormRequest "GET" [] []) Demo.logged_in
  = (Ok (Html (upload_form_page "/home")), Demo.logged_in) /\
  upload_form (env := Demo.environ) (fw := Demo.framework)
    (cd := DemoData.climate PNone)
    (FormRequest "POST" [] [("file_content_type", "application/zip")])
    Demo.logged_in
  = (Ok (Redirect "/upload_form"), Demo.logged_in).
Proof.
  split.
  - destruct (upload_form_calls_client_only_with_file (env := Demo.environ)
                (fw := Demo.framework) (cd := DemoData.climate PNone)
                (FormRequest "GET" [] []) Demo.logged_in) as (_ & Hget & _).
    rewrite Hget; [reflexivity | discriminate].
  - destruct (upload_form_calls_client_only_with_file (env := Demo.environ)
                (fw := Demo.framework) (cd := DemoData.climate PNone)
                (FormRequest "POST" []
                   [("file_content_type", "application/zip")])
                Demo.logged_in) as (_ & _ & Hpost & _).
    rewrite Hpost; reflexivity.
Defined.

Lemma upload_form_shows_upload_id_witness :
  let zip := FileStorage (Some [Byte.x50; Byte.x4b]) in
  upload_form (env := Demo.environ) (fw := Demo.framework)
    (cd := DemoData.climate PNone)
    (FormRequest "POST" [("file", zip)]
       [("file_content_type", "application/zip")])
    Demo.logged_in
  = (Ok (Html (uploaded_page "upload-7" "/update_status?upload_id=upload-7"
                 "/home")),
     World (_state Demo.logged_in) ["authorize"; "get_fields"; "upload"]).
Proof.
  intros zip.
  exact (proj1
           (upload_form_shows_upload_id (env := Demo.environ)
              (fw := Demo.framework) (cd := DemoData.climate PNone)
              (FormRequest "POST" [("file", zip)]
                 [("file_content_type", "application/zip")])
              Demo.logged_in zip [Byte.x50; Byte.x4b] "application/zip"
              "/update_status?upload_id=upload-7" "/home" (PStr "upload-7")
              eq_refl eq_refl eq_refl eq_refl eq_refl eq_refl eq_refl)).
Defined.

(** ** One bad record *)

Lemma mapR_first_failure {A B} (f : A -> result B)
  (pre : list A) (a : A) (post : list A) (e : exn) :
  Forall (fun x => exists y, f x = Ok y) pre ->
  f a = Raise e ->
  mapR f (pre ++ a :: post) = Raise e.
Proof.
  intros Hpre Ha. induction Hpre as [| x pre [y Hy] _ IH]; simpl.
  - rewrite Ha. reflexivity.
  - rewrite Hy, IH. reflexivity.
Qed.

Lemma fields_with_id_first_failure
  (field_id : string) (pre : list pyval) (a : pyval) (post : list pyval)
  (e : exn) :
  Forall (fun f => exists v, py_getitem f "id" = Ok v) pre ->
  py_getitem a "id" = Raise e ->
  fields_with_id field_id (pre ++ a :: post) = Raise e.
Proof.
  intros Hpre Ha. induction Hpre as [| x pre [v Hv] _ IH]; simpl.
  - rewrite Ha. reflexivity.
  - rewrite Hv, IH. reflexivity.
Qed.

Section FieldPage.
Context {env : Environ} {fw : Framework} {cl : Climate}.

(** X19: for the record the lookup selects, the field page asks the client
    once for the boundary named by the record's [boundaryId], with the
    session's access token, and shows the record's name and the boundary
    as JSON. *)
Theorem field_detail_page
  (w : world) (field_id home_url : string)
  (f boundary_id name boundary : pyval) :
  lookup_field (state (_state w) "fields") field_id = Ok f ->
  py_getitem f "boundaryId" = Ok boundary_id ->
  get_boundary boundary_id (state (_state w) "access_token") CLIMATE_API_KEY
  = Ok boundary ->
  py_getitem f "name" = Ok name ->
  url_for "home" [] = Ok home_url ->
  let page := field_page (py_str name) (json_dumps boundary) home_url in
  field field_id w
  = (Ok (Html page), World (_state w) (calls w ++ ["get_boundary"])) /\
  occurs ("<h2>Field Name: " +:+ py_str name +:+ "</h2>") page /\
  occurs ("<p>Boundary info:<pre>" +:+ json_dumps boundary +:+ "</pre></p>")
    page.
Proof.
  intros Hlookup Hbid Hboundary Hname Hhome page. split; [| split].
  - unfold field, show_field, bind, stateM, lift, climate_call, ret. simpl.
    rewrite Hlookup. simpl. rewrite Hbid. simpl. rewrite Hboundary. simpl.
    rewrite Hname. simpl. rewrite Hhome. reflexivity.
  - unfold page, field_page. find_text.
  - unfold page, field_page. find_text.
Qed.

(** X20: the field page fails before any client call when there is no
    cached list ([TypeError]), when the selected record has no
    [boundaryId], and when any record of the list has no [id]: the scan
    subscripts every record, so one such record makes the page of every
    field fail, also of a field that comes before it in the list. *)
Theorem field_page_failures (w : world) (field_id : string) :
  (state (_state w) "fields" = PNone ->
   field field_id w = (Raise TypeError, w)) /\
  (forall f e,
     lookup_field (state (_state w) "fields") field_id = Ok f ->
     py_getitem f "boundaryId" = Raise e ->
     field field_id w = (Raise e, w)) /\
  (forall pre a post e,
     state (_state w) "fields" = PList (pre ++ a :: post) ->
     Forall (fun f => exists v, py_getitem f "id" = Ok v) pre ->
     py_getitem a "id" = Raise e ->
     field field_id w = (Raise e, w)).
Proof.
  unfold field, show_field, bind, stateM, lift. split; [| split].
  - intros ->. reflexivity.
  - intros f e -> ->. reflexivity.
  - intros pre a post e -> Hpre Ha. unfold lookup_field. simpl.
    rewrite (fields_with_id_first_failure _ _ _ _ _ Hpre Ha). reflexivity.
Qed.

(** X21: an activity listing has no client function to ask when the
    module has no getter of that name, and raises [AttributeError] without
    a call; and one activity record without an [id] fails the whole
    listing, whatever the other records are. *)
Theorem activity_listing_failures (activity : string) :
  (forall req w,
     climate_getattr ("get_" +:+ activity) = None ->
     handle_activity activity req w
     = (Raise (AttributeError ("get_" +:+ activity)), w)) /\
  (forall pre a post e link,
     url_for activity [] = Ok link ->
     Forall (fun x => exists i n, py_getitem x "id" = Ok i /\
                                  py_getitem x "length" = Ok n) pre ->
     py_getitem a "id" = Raise e ->
     activity_body activity (PList (pre ++ a :: post)) = Raise e).
Proof.
  split.
  - intros req w Hnone. unfold handle_activity, bind, lift, get_callee.
    rewrite Hnone. reflexivity.
  - intros pre a post e link Hlink Hpre Ha. unfold activity_body. simpl.
    rewrite (mapR_first_failure _ pre a post e).
    + reflexivity.
    + eapply Forall_impl; [exact Hpre |]. simpl.
      intros x (i & n & Hi & Hn). rewrite Hlink. simpl.
      unfold render_activitiy_link. rewrite Hi, Hn. simpl. eauto.
    + rewrite Hlink. simpl. unfold render_activitiy_link. rewrite Ha.
      reflexivity.
Qed.

End FieldPage.

Lemma field_detail_page_witness :
  field (env := Demo.environ) (fw := Demo.framework)
    (cl := Demo.climate (PNone, PNone)) "b" Demo.logged_in
  = (Ok (Html (field_page "South" "{...}" "/home")),
     World (_state Demo.logged_in) ["authorize"; "get_fields"; "get_boundary"]).
Proof.
  exact (proj1
           (field_detail_page (env := Demo.environ) (fw := Demo.framework)
              (cl := Demo.climate (PNone, PNone)) Demo.logged_in "b" "/home"
              Demo.south_field (PStr "bb") (PStr "South") (PDict [])
              eq_refl eq_refl eq_refl eq_refl eq_refl)).
Defined.

Lemma field_page_failures_witness :
  let w := World {[ "fields" := PList [Demo.north_field; PDict []] ]} [] in
  field (env := Demo.environ) (fw := Demo.framework)
    (cl := Demo.climate (PNone, PNone)) "a" w
  = (Raise (KeyError "id"), w) /\
  field (env := Demo.environ) (fw := Demo.framework)
    (cl := Demo.climate (PNone, PNone)) "a" initial
  = (Raise TypeError, initial).
Proof.
  intros w. split.
  - destruct (field_page_failures (env := Demo.environ)
                (fw := Demo.framework) (cl := Demo.climate (PNone, PNone))
                w "a") as (_ & _ & Hbad).
    apply (Hbad [Demo.north_field] (PDict []) [] (KeyError "id"));
      [reflexivity | | reflexivity].
    repeat constructor. eexists. reflexivity.
  - destruct (field_page_failures (env := Demo.environ)
                (fw := Demo.framework) (cl := Demo.climate (PNone, PNone))
                initial "a") as (Hnone & _ & _).
    apply Hnone. reflexivity.
Defined.

Lemma activity_listing_failures_witness :
  handle_activity (env := Demo.environ) (fw := Demo.framework)
    (cl := Demo.climate (PNone, PNone)) "as_sprayed" (Request [])
    Demo.logged_in
  = (Raise (AttributeError "get_as_sprayed"), Demo.logged_in) /\
  activity_body (fw := Demo.framework) "as_planted"
    (PList [PDict [("id", PStr "x1"); ("length", PInt 3)];
            PDict [("length", PInt 4)]])
  = Raise (KeyError "id").
Proof.
  destruct (activity_listing_failures (env := Demo.environ)
              (fw := Demo.framework) (cl := Demo.climate (PNone, PNone))
              "as_sprayed") as [Hgetter _].
  destruct (activity_listing_failures (env := Demo.environ)
              (fw := Demo.framework) (cl := Demo.climate (PNone, PNone))
              "as_planted") as [_ Hrecord].
  split.
  - apply Hgetter. reflexivity.
  - apply (Hrecord [PDict [("id", PStr "x1"); ("length", PInt 3)]]
             (PDict [("length", PInt 4)]) [] (KeyError "id") "/as_planted");
      [reflexivity | | reflexivity].
    repeat constructor. do 2 eexists. split; reflexivity.
Defined.

(** ** The attachment list *)


Section Attachments.
Context {env : Environ} {fw : Framework} {cd : ClimateData}.


End Attachments.

